(** * The items API Lambda handler (lambda_function/main.py)

    A shallow embedding of the request handler of the serverless items
    API: the dispatcher [handler], the four operation handlers
    [handle_create_item], [handle_get_item], [handle_update_item],
    [handle_delete_item] and the metrics helper
    [publish_custom_metrics], followed by the properties of the
    specification stated and settled against that embedding.

    Python values are an inductive type, dictionaries are finite maps,
    and the code's effects (the DynamoDB table, the CloudWatch sink, the
    logger and Python exceptions) are threaded through a state and
    exception monad. *)

From Stdlib Require Import ZArith NArith Floats Ascii String.
From stdpp Require Import gmap strings list fin_maps.

Set Warnings "-register-all,-clear-no-such-hyp".
Local Open Scope Z_scope.
Local Open Scope string_scope.

(** ** Python values *)

(** The values a request body can hold after [json.loads]: [None],
    booleans, integers, floats, strings, lists and dictionaries. *)
Inductive value : Type :=
  | VNone
  | VBool (b : bool)
  | VInt (n : Z)
  | VFloat (f : float)
  | VStr (s : string)
  | VList (l : list value)
  | VDict (d : gmap string value).

(** Python truthiness, as used by [not body], [if body and ...] and
    [x or y]. *)
Definition truthy (v : value) : bool :=
  match v with
  | VNone => false
  | VBool b => b
  | VInt n => negb (n =? 0)%Z
  | VFloat f => negb (PrimFloat.eqb f 0%float)
  | VStr s => negb (String.eqb s "")
  | VList l => match l with [] => false | _ => true end
  | VDict d => negb (bool_decide (d = ∅))
  end.

(** [isinstance(v, dict)] and [isinstance(v, str)]. *)
Definition is_dict (v : value) : bool :=
  match v with VDict _ => true | _ => false end.

Definition is_str (v : value) : bool :=
  match v with VStr _ => true | _ => false end.

(** ** Strings *)

(** [s.endswith(suffix)]. *)
Fixpoint endswith (s suffix : string) : bool :=
  if String.eqb s suffix then true
  else match s with
       | EmptyString => false
       | String _ s' => endswith s' suffix
       end.

(** [sub in s] on strings. *)
Fixpoint contains (sub s : string) : bool :=
  if String.prefix sub s then true
  else match s with
       | EmptyString => false
       | String _ s' => contains sub s'
       end.

(** [path.split('/')[-1]]: what follows the last slash, the whole string
    when there is none. *)
Fixpoint last_segment (path : string) : string :=
  match path with
  | EmptyString => EmptyString
  | String c rest =>
      if contains "/" rest then last_segment rest
      else if Ascii.eqb c "/"%char then rest
      else path
  end.

(** ** Identifiers: [str(uuid.uuid4())] *)

Definition hex_digit (d : N) : ascii :=
  match d with
  | 0 => "0" | 1 => "1" | 2 => "2" | 3 => "3" | 4 => "4" | 5 => "5"
  | 6 => "6" | 7 => "7" | 8 => "8" | 9 => "9" | 10 => "a" | 11 => "b"
  | 12 => "c" | 13 => "d" | 14 => "e" | _ => "f"
  end%N%char.

(** ['%0<n>x' % v], the [n] low hexadecimal digits of [v]. *)
Fixpoint hex_digits (n : nat) (v : N) (acc : string) : string :=
  match n with
  | O => acc
  | S n' => hex_digits n' (v / 16)%N (String (hex_digit (v mod 16)%N) acc)
  end.

(** [UUID.__str__]: the 32 hexadecimal digits of the 128-bit integer in
    groups of 8, 4, 4, 4 and 12, joined by dashes. *)
Definition str_uuid (u : N) : string :=
  let hex := hex_digits 32 u "" in
  substring 0 8 hex ++ "-" ++ substring 8 4 hex ++ "-" ++
  substring 12 4 hex ++ "-" ++ substring 16 4 hex ++ "-" ++
  substring 20 12 hex.

(** ** Exceptions, environment and world *)

(** The exceptions that occur in the module: botocore's [ClientError]
    (the only class the operation handlers catch by name), [NameError],
    and any other [Exception] a collaborator may raise. *)
Inductive exn : Type :=
  | ClientError (code : string)
  | NameError (name : string)
  | OtherException (what : string).

Definition is_ClientError (e : exn) : bool :=
  match e with ClientError _ => true | _ => false end.

(** [except:] and [except Exception] catch every exception above. *)
Definition any_exception (e : exn) : bool := true.

(** An update expression [SET a1 = :p1, a2 = :p2, ...] in parsed form:
    the assignments in the order the code appends them, each an attribute
    name and the placeholder it is set from. *)
Definition update_expr : Type := list (string * string).

(** The calls the code makes on the table. *)
Inductive ddb_call : Type :=
  | GetItem (key : string)
  | PutItem (item : gmap string value)
  | UpdateItem (key : string) (expression : update_expr)
      (expression_values : gmap string value)
  | DeleteItem (key : string).

Inductive level : Type := INFO | WARNING | ERROR.

(** One [put_metric_data] datum in namespace [ServerlessAPI/Custom]. *)
Record metric : Type := Metric {
  MetricName : string;
  Value : value;
  Unit : string;
  FunctionName : string
}.

(** What a single invocation reads from outside the module: the random
    UUID, the clock ([int(time.time())], whole seconds), the measured
    processing time, and whether a call on a collaborator fails and with
    which exception (throttling, network failure, request validation). *)
Record env : Type := Env {
  uuid4 : N;
  time_time : Z;
  processing_time : float;
  ddb_fault : ddb_call -> option exn;
  cloudwatch_fault : option exn
}.

(** The Lambda context object. *)
Record context : Type := Context {
  aws_request_id : string;
  function_name : string
}.

(** The state outside the module: the DynamoDB table (items by their
    [itemId]), the calls made on it so far, the metric data published
    and the log records written. *)
Record world : Type := World {
  table : gmap string (gmap string value);
  ddb_calls : list ddb_call;
  metrics : list metric;
  logs : list (level * string)
}.

(** ** The monad: state and exceptions *)

Inductive result (A : Type) : Type :=
  | Ok (a : A)
  | Raise (e : exn).
Arguments Ok {A} a.
Arguments Raise {A} e.

Definition M (A : Type) : Type := world -> result A * world.

Definition M_ret {A} (a : A) : M A := fun w => (Ok a, w).

Definition M_bind {A B} (k : A -> M B) (c : M A) : M B :=
  fun w =>
    match c w with
    | (Ok a, w') => k a w'
    | (Raise e, w') => (Raise e, w')
    end.

#[export] Instance M_mret : MRet M := @M_ret.
#[export] Instance M_mbind : MBind M := @M_bind.

Definition raise {A} (e : exn) : M A := fun w => (Raise e, w).

(** A step that touches no state: it only returns or raises. *)
Definition of_result {A} (r : result A) : M A := fun w => (r, w).

(** [try: body / except <catches> as e: handler e]. *)
Definition try_except {A} (body : M A) (catches : exn -> bool)
    (handler : exn -> M A) : M A :=
  fun w =>
    match body w with
    | (Ok a, w') => (Ok a, w')
    | (Raise e, w') => if catches e then handler e w' else (Raise e, w')
    end.

(** [logger.info], [logger.warning], [logger.error]. *)
Definition log (l : level) (message : string) : M unit :=
  fun w => (Ok tt, World (table w) (ddb_calls w) (metrics w)
                     (logs w ++ [(l, message)])%list).

Definition record_call (c : ddb_call) : M unit :=
  fun w => (Ok tt, World (table w) (ddb_calls w ++ [c])%list (metrics w) (logs w)).

Definition set_table (t : gmap string (gmap string value)) : M unit :=
  fun w => (Ok tt, World t (ddb_calls w) (metrics w) (logs w)).

Definition get_table : M (gmap string (gmap string value)) :=
  fun w => (Ok (table w), w).

(** ** The DynamoDB table *)

(** The table behaves as a key-value store by primary key: a get reads,
    a put replaces, an update merges its SET assignments, a delete
    removes. Whether a call fails (throttling, an unreachable endpoint, a
    request the service refuses to validate, such as an update expression
    that names a reserved word or one attribute twice) is decided by the
    environment, call by call, through [ddb_fault]. *)

(** Modelled from the spec: the key schema of the table, which the
    infrastructure code declares and the handler only uses through
    [Key={'itemId': ...}]. The primary key of an item is its [itemId]
    attribute, a string; DynamoDB accepts no empty string as a key. *)
Definition key_of (item : gmap string value) : option string :=
  match item !! "itemId" with
  | Some (VStr k) => if String.eqb k "" then None else Some k
  | _ => None
  end.

(** Every call is recorded, then fails if the environment says so. *)
Definition ddb_request (e : env) (c : ddb_call) : M unit :=
  record_call c;;
  match ddb_fault e c with
  | Some err => raise err
  | None => mret tt
  end.

(** [table.get_item(Key={'itemId': key})]; [None] stands for a response
    without ['Item']. *)
Definition get_item (e : env) (key : string) : M (option (gmap string value)) :=
  ddb_request e (GetItem key);;
  t ← get_table;
  mret (t !! key).

(** [table.put_item(Item=item)]: stores the item under its key, replacing
    what was there; an item without a valid key is rejected. *)
Definition put_item (e : env) (item : gmap string value) : M unit :=
  ddb_request e (PutItem item);;
  match key_of item with
  | None => raise (ClientError "ValidationException")
  | Some k => t ← get_table; set_table (<[k := item]> t)
  end.

(** The effect of the SET assignments on an item, left to right; a
    placeholder without a value makes the request invalid. *)
Fixpoint apply_set (expression : update_expr)
    (expression_values : gmap string value) (item : gmap string value)
    : option (gmap string value) :=
  match expression with
  | [] => Some item
  | (attr, placeholder) :: rest =>
      match expression_values !! placeholder with
      | None => None
      | Some v => apply_set rest expression_values (<[attr := v]> item)
      end
  end.

(** [table.update_item(Key=..., UpdateExpression=...,
    ExpressionAttributeValues=...)]: merges the assignments into the item
    at the key; DynamoDB starts from an item holding only the key when
    there is none. *)
Definition update_item (e : env) (key : string) (expression : update_expr)
    (expression_values : gmap string value) : M unit :=
  ddb_request e (UpdateItem key expression expression_values);;
  t ← get_table;
  match apply_set expression expression_values
          (default {["itemId" := VStr key]} (t !! key)) with
  | None => raise (ClientError "ValidationException")
  | Some item => set_table (<[key := item]> t)
  end.

(** [table.delete_item(Key={'itemId': key})]. *)
Definition delete_item (e : env) (key : string) : M unit :=
  ddb_request e (DeleteItem key);;
  t ← get_table;
  set_table (delete key t).

(** ** CloudWatch *)

(** [cloudwatch.put_metric_data(Namespace='ServerlessAPI/Custom',
    MetricData=[...])]. *)
Definition put_metric_data (e : env) (m : metric) : M unit :=
  fun w =>
    match cloudwatch_fault e with
    | Some err => (Raise err, w)
    | None => (Ok tt, World (table w) (ddb_calls w) (metrics w ++ [m])%list (logs w))
    end.

Definition publish_custom_metrics (e : env) (function_name metric_name : string)
    (v : value) : M unit :=
  try_except
    (put_metric_data e
       {| MetricName := metric_name;
          Value := v;
          Unit := if String.eqb metric_name "ProcessingTime"
                  then "Milliseconds" else "Count";
          FunctionName := function_name |})
    any_exception
    (fun _ => log WARNING "Failed to publish custom metric").

(** ** Responses *)

(** The response dictionary. [body] holds the object that the code hands
    to [json.dumps]; the rendering to text is not modelled, so two bodies
    are compared as objects. *)
Record response : Type := Response {
  statusCode : Z;
  headers : gmap string string;
  body : value
}.

Definition json_headers : gmap string string :=
  {[ "Content-Type" := "application/json";
     "Access-Control-Allow-Origin" := "*" ]}.

Definition error_response (status : Z) (message : string) : response :=
  Response status json_headers (VDict {[ "error" := VStr message ]}).

Definition message_response (status : Z) (item_id message : string) : response :=
  Response status json_headers
    (VDict {[ "itemId" := VStr item_id; "message" := VStr message ]}).

(** ** Create *)

(** [not body or not isinstance(body, dict)] fails exactly when the body
    is a dictionary with at least one key. *)
Definition object_body (body : value) : option (gmap string value) :=
  if negb (truthy body) || negb (is_dict body) then None
  else match body with VDict d => Some d | _ => None end.

Definition required_fields : list string := ["name"].

(** [for field in required_fields: if field not in body: return ...]:
    the first required field that the body lacks. *)
Fixpoint first_missing (fields : list string) (d : gmap string value)
    : option string :=
  match fields with
  | [] => None
  | field :: rest =>
      match d !! field with
      | None => Some field
      | Some _ => first_missing rest d
      end
  end.

(** [d[key]], raising [KeyError] on a missing key. *)
Definition subscript (d : gmap string value) (key : string) : M value :=
  match d !! key with
  | Some v => mret v
  | None => raise (OtherException "KeyError")
  end.

(** [for key, value in body.items(): if key not in excluded:
    item[key] = value]. *)
Definition copy_fields (excluded : list string) (d item : gmap string value)
    : gmap string value :=
  map_fold (fun key v acc =>
              if bool_decide (key ∈ excluded) then acc else <[key := v]> acc)
           item d.

(** The item that Create builds before the put. *)
Definition new_item (item_id : string) (timestamp : Z) (name : value)
    (d : gmap string value) : gmap string value :=
  copy_fields ["name"; "description"] d
    {[ "itemId" := VStr item_id;
       "name" := name;
       "description" := default (VStr "") (d !! "description");
       "createdAt" := VInt timestamp;
       "updatedAt" := VInt timestamp ]}.

(** [context] is neither a parameter nor a local of [handle_create_item],
    and the module defines no global of that name: evaluating it raises
    [NameError]. *)
Definition load_global_context : M context := raise (NameError "context").

Definition handle_create_item (e : env) (body : value) (request_id : string)
    : M response :=
  match object_body body with
  | None =>
      log WARNING "Invalid input: body must be a JSON object";;
      mret (error_response 400 "Invalid input: body must be a JSON object")
  | Some d =>
      match first_missing required_fields d with
      | Some field =>
          log WARNING ("Missing required field: " ++ field);;
          mret (error_response 400 ("Missing required field: " ++ field))
      | None =>
          let item_id := str_uuid (uuid4 e) in
          let timestamp := time_time e in
          name ← subscript d "name";
          let item := new_item item_id timestamp name d in
          try_except
            (put_item e item;;
             log INFO "Item created successfully";;
             try_except
               (ctx ← load_global_context;
                publish_custom_metrics e (function_name ctx) "ProcessingTime"
                  (VFloat (processing_time e)))
               any_exception
               (fun _ => mret tt);;
             mret (message_response 201 item_id "Item created successfully"))
            is_ClientError
            (fun _ =>
               log ERROR "Failed to create item in DynamoDB";;
               mret (error_response 500 "Failed to create item"))
      end
  end.

(** ** Get *)

Definition handle_get_item (e : env) (item_id : string) (request_id : string)
    : M response :=
  if String.eqb item_id "" then
    log WARNING "Item ID is required";;
    mret (error_response 400 "Item ID is required")
  else
    try_except
      (found ← get_item e item_id;
       match found with
       | None =>
           log INFO "Item not found";;
           mret (error_response 404 "Item not found")
       | Some item =>
           log INFO "Item retrieved successfully";;
           mret (Response 200 json_headers (VDict item))
       end)
      is_ClientError
      (fun _ =>
         log ERROR "Failed to retrieve item from DynamoDB";;
         mret (error_response 500 "Failed to retrieve item")).

(** ** Update *)

(** [f':{key}']. *)
Definition placeholder (key : string) : string := ":" ++ key.

(** The loop that extends the update expression and its values: starting
    from [SET updatedAt = :updated_at], every body key except [itemId]
    and [createdAt] adds [key = :key] and stores the value under [:key]. *)
Definition update_request (timestamp : Z) (d : gmap string value)
    : update_expr * gmap string value :=
  map_fold (fun key v acc =>
              if bool_decide (key ∈ ["itemId"; "createdAt"]) then acc
              else ((acc.1 ++ [(key, placeholder key)])%list,
                    <[placeholder key := v]> acc.2))
           ([("updatedAt", ":updated_at")],
            {[ ":updated_at" := VInt timestamp ]})
           d.

Definition handle_update_item (e : env) (item_id : string) (body : value)
    (request_id : string) : M response :=
  if String.eqb item_id "" then
    log WARNING "Item ID is required for update";;
    mret (error_response 400 "Item ID is required for update")
  else
    match object_body body with
    | None =>
        log WARNING "Invalid input: body must be a JSON object";;
        mret (error_response 400 "Invalid input: body must be a JSON object")
    | Some d =>
        try_except
          (existing_item ← get_item e item_id;
           match existing_item with
           | None =>
               log INFO "Item not found for update";;
               mret (error_response 404 "Item not found")
           | Some _ =>
               let request := update_request (time_time e) d in
               update_item e item_id request.1 request.2;;
               log INFO "Item updated successfully";;
               mret (message_response 200 item_id "Item updated successfully")
           end)
          is_ClientError
          (fun _ =>
             log ERROR "Failed to update item in DynamoDB";;
             mret (error_response 500 "Failed to update item"))
    end.

(** ** Delete *)

Definition handle_delete_item (e : env) (item_id : string) (request_id : string)
    : M response :=
  if String.eqb item_id "" then
    log WARNING "Item ID is required for deletion";;
    mret (error_response 400 "Item ID is required for deletion")
  else
    try_except
      (existing_item ← get_item e item_id;
       match existing_item with
       | None =>
           log INFO "Item not found for deletion";;
           mret (error_response 404 "Item not found")
       | Some _ =>
           delete_item e item_id;;
           log INFO "Item deleted successfully";;
           mret (message_response 200 item_id "Item deleted successfully")
       end)
      is_ClientError
      (fun _ =>
         log ERROR "Failed to delete item from DynamoDB";;
         mret (error_response 500 "Failed to delete item")).

(** ** The dispatcher *)

(** The API Gateway event, read with [event.get]: the method and the path
    default to the empty string, [pathParameters] may be absent or [None],
    and [event_body] is [VStr ""] when the event has no body. *)
Record event : Type := Event {
  httpMethod : string;
  path : string;
  pathParameters : option (gmap string string);
  event_body : value
}.

(** [path_parameters.get('id') or path.split('/')[-1]], with
    [path_parameters = event.get('pathParameters', {}) or {}]. *)
Definition requested_id (ev : event) : string :=
  let path_parameters := default ∅ (pathParameters ev) in
  match path_parameters !! "id" with
  | Some id => if String.eqb id "" then last_segment (path ev) else id
  | None => last_segment (path ev)
  end.

(** What a call of [json.loads] on a text ends with: the parsed value,
    [JSONDecodeError] for a text that is no JSON, or another exception.
    The standard library's parser raises [RecursionError] on brackets
    nested too deeply and [ValueError] on an integer literal of more
    digits than the interpreter converts; neither is a
    [JSONDecodeError]. *)
Inductive loaded : Type :=
  | Loaded (v : value)
  | JSONDecodeError
  | LoadError (err : exn).

Section Dispatcher.

(** [json.loads], the standard library's parser. *)
Variable json_loads : string -> loaded.

(** [if body and isinstance(body, str): try: body = json.loads(body)
    except json.JSONDecodeError: pass]. The body is parsed only when it is
    a non-empty string; a string that is no JSON is left as it is, and
    any other exception of the parser is not caught. *)
Definition parse_body (b : value) : result value :=
  if truthy b && is_str b then
    match b with
    | VStr s =>
        match json_loads s with
        | Loaded v => Ok v
        | JSONDecodeError => Ok b
        | LoadError err => Raise err
        end
    | _ => Ok b
    end
  else Ok b.

(** The body is parsed before the [try] of the dispatcher: an exception
    of [parse_body] leaves [handler] uncaught. *)
Definition handler (e : env) (ev : event) (ctx : context) : M response :=
  let http_method := httpMethod ev in
  let path := path ev in
  body ← of_result (parse_body (event_body ev));
  let request_id := aws_request_id ctx in
  log INFO "Incoming request";;
  try_except
    (response ←
       (if String.eqb http_method "POST" && endswith path "/items" then
          handle_create_item e body request_id
        else if String.eqb http_method "GET" && contains "/items/" path then
          handle_get_item e (requested_id ev) request_id
        else if String.eqb http_method "PUT" && contains "/items/" path then
          handle_update_item e (requested_id ev) body request_id
        else if String.eqb http_method "DELETE" && contains "/items/" path then
          handle_delete_item e (requested_id ev) request_id
        else
          log WARNING ("Unsupported route: " ++ http_method ++ " " ++ path);;
          mret (error_response 404 "Not found"));
     log INFO "Request processed successfully";;
     try_except
       (publish_custom_metrics e (function_name ctx)
          "SuccessfulInvocations" (VInt 1))
       any_exception
       (fun _ => mret tt);;
     mret response)
    any_exception
    (fun _ =>
       log ERROR "Error processing request";;
       try_except
         (publish_custom_metrics e (function_name ctx)
            "InvocationErrors" (VInt 1))
         any_exception
         (fun _ => mret tt);;
       mret (error_response 500 "Internal server error")).

End Dispatcher.

(** ** Sample environments *)

Definition no_fault : ddb_call -> option exn := fun _ => None.

Definition sample_env (u : N) (now : Z) : env :=
  Env u now 10%float no_fault None.

Definition empty_world : world := World ∅ [] [] [].

Definition sample_uuid : N := 0x123e4567e89b42d3a456426614174000%N.

(** ** Notions used by the properties *)

(** No call on the table fails in this invocation. *)
Definition fault_free (e : env) : Prop := ∀ c, ddb_fault e c = None.

(** The put of an item succeeds: the environment lets the call through
    and the item has a valid key. *)
Definition put_succeeds (e : env) (item : gmap string value) : Prop :=
  ddb_fault e (PutItem item) = None ∧ is_Some (key_of item).

(** The item that Create sends to the table for a body [d]. *)
Definition created_item (e : env) (d : gmap string value) : gmap string value :=
  new_item (str_uuid (uuid4 e)) (time_time e) (default VNone (d !! "name")) d.

(** Every item of the table is stored under its own [itemId]. *)
Definition table_ok (t : gmap string (gmap string value)) : Prop :=
  map_Forall (fun k item => key_of item = Some k) t.

(** [createdAt <= updatedAt], both being integers. *)
Definition timestamps_ordered (item : gmap string value) : bool :=
  match item !! "createdAt", item !! "updatedAt" with
  | Some (VInt c), Some (VInt u) => (c <=? u)%Z
  | _, _ => false
  end.

(** The four routed operations, and a run of several invocations, each
    with its own environment. *)
Inductive request : Type :=
  | Create (body : value)
  | Get (item_id : string)
  | Update (item_id : string) (body : value)
  | Delete (item_id : string).

Definition serve (e : env) (r : request) : M response :=
  match r with
  | Create body => handle_create_item e body "request"
  | Get item_id => handle_get_item e item_id "request"
  | Update item_id body => handle_update_item e item_id body "request"
  | Delete item_id => handle_delete_item e item_id "request"
  end.

Fixpoint run (steps : list (env * request)) (w : world) : world :=
  match steps with
  | [] => w
  | (e, r) :: rest => run rest (serve e r w).2
  end.

(** [json.loads] raises nothing on the body of the event except
    [JSONDecodeError]: the body is no string, or the empty string, which
    is not parsed, or a text that the parser reads or rejects as no
    JSON. *)
Definition body_readable (json_loads : string -> loaded) (ev : event) : bool :=
  match event_body ev with
  | VStr s =>
      String.eqb s ""
      || match json_loads s with
         | LoadError _ => false
         | _ => true
         end
  | _ => true
  end.


(** ** Sample requests *)

Definition sample_id : string := "123e4567-e89b-42d3-a456-426614174000".

Definition widget_body : gmap string value := {[ "name" := VStr "Widget" ]}.

Definition body_with_itemId : gmap string value :=
  {[ "name" := VStr "A"; "itemId" := VStr "custom" ]}.

Definition body_with_updatedAt : gmap string value :=
  {[ "name" := VStr "A"; "updatedAt" := VInt 0 ]}.

Definition description_only : gmap string value :=
  {[ "description" := VStr "no name" ]}.

Definition stored_widget : gmap string value :=
  {[ "itemId" := VStr "item-1";
     "name" := VStr "Widget";
     "description" := VStr "";
     "createdAt" := VInt 100;
     "updatedAt" := VInt 100 ]}.

Definition world_with_widget : world :=
  World {[ "item-1" := stored_widget ]} [] [] [].

Definition name_A : gmap string value := {[ "name" := VStr "A" ]}.

Definition description_B : gmap string value := {[ "description" := VStr "B" ]}.

(** [updatedAt > createdAt], both being integers. *)
Definition updated_after_created (item : gmap string value) : bool :=
  match item !! "createdAt", item !! "updatedAt" with
  | Some (VInt c), Some (VInt u) => (c <? u)%Z
  | _, _ => false
  end.

(** The item carried by a 200 response of Get. *)
Definition returned_item (r : result response) : option (gmap string value) :=
  match r with
  | Ok resp =>
      if (statusCode resp =? 200)%Z then
        match body resp with
        | VDict item => Some item
        | _ => None
        end
      else None
  | Raise _ => None
  end.

Definition sample_context : context := Context "request-1" "items-api".

(** A parser that reads nothing as JSON. *)
Definition reject_all : string -> loaded := fun _ => JSONDecodeError.


(** The text ['1' * 5000], an integer literal of 5000 digits, and
    [json.loads] on it: the literal is beyond the 4300 digits that the
    interpreter converts, and the parser raises [ValueError]. The parser
    below knows only this text. *)
Definition long_integer : string :=
  Pos.iter (String "1"%char) EmptyString 5000.

Definition loads_long_integer : string -> loaded :=
  fun s =>
    if String.eqb s long_integer then LoadError (OtherException "ValueError")
    else JSONDecodeError.

Definition patch_long_integer : event :=
  Event "PATCH" "/items/42" None (VStr long_integer).

(** ** Runs that stay clear of the timestamp keys *)

Definition lacks (d : gmap string value) (key : string) : bool :=
  match d !! key with
  | None => true
  | Some _ => false
  end.

(** A create whose body sets neither timestamp, an update whose body has
    neither [updatedAt] nor [updated_at], or any get or delete. *)
Definition plain_request (r : request) : bool :=
  match r with
  | Create (VDict d) => lacks d "createdAt" && lacks d "updatedAt"
  | Update _ (VDict d) => lacks d "updatedAt" && lacks d "updated_at"
  | _ => true
  end.

(** The clock readings of the invocations never go back, starting from
    the reading [t]. *)
Fixpoint clock_from (t : Z) (steps : list (env * request)) : bool :=
  match steps with
  | [] => true
  | (e, _) :: rest => (t <=? time_time e)%Z && clock_from (time_time e) rest
  end.

(** Both timestamps are integers with [createdAt <= updatedAt <= t]. *)
Definition stamped (t : Z) (item : gmap string value) : Prop :=
  ∃ c u, item !! "createdAt" = Some (VInt c)
         ∧ item !! "updatedAt" = Some (VInt u)
         ∧ (c <= u <= t)%Z.

Definition unordered_run : list (env * request) :=
  [(sample_env sample_uuid 1700000000, Create (VDict body_with_updatedAt))].

Definition body_with_updated_at : gmap string value :=
  {[ "updated_at" := VInt 0 ]}.

(** ** Notions used by the properties of the dispatcher *)

(** The operation that the dispatcher selects for an event and its
    parsed body, and [None] for an unmatched route. *)
Definition route (ev : event) (body : value) : option request :=
  if String.eqb (httpMethod ev) "POST" && endswith (path ev) "/items" then
    Some (Create body)
  else if String.eqb (httpMethod ev) "GET" && contains "/items/" (path ev) then
    Some (Get (requested_id ev))
  else if String.eqb (httpMethod ev) "PUT" && contains "/items/" (path ev) then
    Some (Update (requested_id ev) body)
  else if String.eqb (httpMethod ev) "DELETE" && contains "/items/" (path ev) then
    Some (Delete (requested_id ev))
  else None.

(** What the dispatcher runs for the selected operation. *)
Definition dispatch (e : env) (ev : event) (target : option request)
    : M response :=
  match target with
  | Some r => serve e r
  | None =>
      log WARNING ("Unsupported route: " ++ httpMethod ev ++ " " ++ path ev);;
      mret (error_response 404 "Not found")
  end.

(** The same environment with another outcome for CloudWatch. *)
Definition with_cloudwatch (fault : option exn) (e : env) : env :=
  Env (uuid4 e) (time_time e) (processing_time e) (ddb_fault e) fault.

(** The datum of the two invocation counters. *)
Definition counter (ctx : context) (metric_name : string) : metric :=
  Metric metric_name (VInt 1) "Count" (function_name ctx).

(** The world after one more log record, one more recorded call, or a
    new table content. *)
Definition logged (l : level) (message : string) (w : world) : world :=
  (log l message w).2.

Definition called (c : ddb_call) (w : world) : world := (record_call c w).2.

Definition stored (t : gmap string (gmap string value)) (w : world) : world :=
  (set_table t w).2.

(** The world after [publish_custom_metrics]: one more datum, or one
    more warning in the log when CloudWatch fails. *)
Definition published (e : env) (m : metric) (w : world) : world :=
  match cloudwatch_fault e with
  | None => World (table w) (ddb_calls w) (metrics w ++ [m])%list (logs w)
  | Some _ => logged WARNING "Failed to publish custom metric" w
  end.

(** The status codes that occur in the module. *)
Definition status_codes : list Z := [200; 201; 400; 404; 500]%Z.

(** The key that an operation addresses: the requested identifier, or
    for Create the key of the item it builds. *)
Definition addressed (e : env) (r : request) : option string :=
  match r with
  | Create body =>
      match object_body body with
      | Some d => key_of (created_item e d)
      | None => None
      end
  | Get item_id | Update item_id _ | Delete item_id => Some item_id
  end.

(** The five fields that Create sets itself. *)
Definition standard_fields : list string :=
  ["itemId"; "name"; "description"; "createdAt"; "updatedAt"].

(** The message with which each operation reports a [ClientError]. *)
Definition failure_message (r : request) : string :=
  match r with
  | Create _ => "Failed to create item"
  | Get _ => "Failed to retrieve item"
  | Update _ _ => "Failed to update item"
  | Delete _ => "Failed to delete item"
  end.

(** The text [{"name": "Widget"}], and a parser that knows only it. *)
Definition quote : string := String (Ascii.ascii_of_nat 34) "".

Definition widget_json : string :=
  "{" ++ quote ++ "name" ++ quote ++ ": " ++ quote ++ "Widget" ++ quote ++ "}".

Definition parse_widget : string -> loaded :=
  fun s =>
    if String.eqb s widget_json then Loaded (VDict widget_body)
    else JSONDecodeError.

(** ** Sample events and environments *)

Definition post_widget_event : event :=
  Event "POST" "/prod/items" None (VStr widget_json).

Definition get_widget_event : event :=
  Event "GET" "/prod/items/item-1" None (VStr "").

Definition get_created_event : event :=
  Event "GET" ("/prod/items/" ++ sample_id) None (VStr "").

Definition post_text_event : event :=
  Event "POST" "/prod/items" None (VStr "not json").

(** An environment whose table is unreachable. *)
Definition down_env : env :=
  Env sample_uuid 1700000000 10%float
    (fun _ => Some (OtherException "EndpointConnectionError")) None.

Definition other_uuid : N := 0x9b2e4567e89b42d3a456426614174fff%N.

Definition plain_run : list (env * request) :=
  [(sample_env sample_uuid 1700000000, Create (VDict name_A));
   (sample_env sample_uuid 1700000005, Update sample_id (VDict description_B));
   (sample_env sample_uuid 1700000009, Get sample_id)].

Definition get_collection_event : event :=
  Event "GET" "/prod/items/" None (VStr "").

Definition colour_blue : gmap string value := {[ "colour" := VStr "blue" ]}.

(** The 400 message with which an operation rejects a request before any
    call on the table, and [None] for a request that passes the guards:
    an empty identifier, a body that is no non-empty dictionary, a
    required field that is missing. *)
Definition validation_error (r : request) : option string :=
  match r with
  | Create body =>
      match object_body body with
      | None => Some "Invalid input: body must be a JSON object"
      | Some d =>
          match first_missing required_fields d with
          | Some field => Some ("Missing required field: " ++ field)
          | None => None
          end
      end
  | Get item_id =>
      if String.eqb item_id "" then Some "Item ID is required" else None
  | Update item_id body =>
      if String.eqb item_id "" then Some "Item ID is required for update"
      else match object_body body with
           | None => Some "Invalid input: body must be a JSON object"
           | Some _ => None
           end
  | Delete item_id =>
      if String.eqb item_id "" then Some "Item ID is required for deletion"
      else None
  end.

Definition put_collection_event : event :=
  Event "PUT" "/prod/items/" None (VStr widget_json).

(** * Properties *)

Local Open Scope list_scope.

(** ** Bodies *)

Lemma object_body_dict (d : gmap string value) :
  d ≠ ∅ -> object_body (VDict d) = Some d.
Proof.
  intros Hd. unfold object_body. cbn [truthy is_dict negb orb].
  rewrite bool_decide_eq_false_2 by done. reflexivity.
Qed.

Lemma object_body_empty : object_body (VDict ∅) = None.
Proof. reflexivity. Qed.

Lemma object_body_Some (body : value) (d : gmap string value) :
  object_body body = Some d -> body = VDict d ∧ d ≠ ∅.
Proof.
  unfold object_body.
  destruct body as [| |n|f|s|l|d']; cbn [truthy is_dict negb];
    rewrite ?orb_true_r; try discriminate.
  case_bool_decide as Hd; cbn; [discriminate|].
  intros [= ->]. done.
Qed.

Lemma lookup_nonempty (d : gmap string value) (k : string) :
  is_Some (d !! k) -> d ≠ ∅.
Proof. intros [v Hv] ->. by rewrite lookup_empty in Hv. Qed.

(** Membership in the literal key lists of the code. *)
Ltac key_list :=
  lazymatch goal with
  | |- _ ∈ _ -> False =>
      let H := fresh in
      intros H;
      repeat (apply elem_of_cons in H as [H|H]; [discriminate H|]);
      by apply elem_of_nil in H
  | |- _ ∉ _ =>
      rewrite ?not_elem_of_cons; repeat split;
      first [ apply not_elem_of_nil
            | assumption
            | let H := fresh in intros H; discriminate H ]
  | |- _ ∈ _ =>
      repeat (apply elem_of_cons; first [left; reflexivity | right])
  end.

(** ** The copy-through loop of Create *)

Lemma copy_fields_lookup (excluded : list string) (d item : gmap string value)
    (k : string) :
  copy_fields excluded d item !! k =
    if bool_decide (k ∈ excluded) then item !! k
    else match d !! k with
         | Some v => Some v
         | None => item !! k
         end.
Proof.
  unfold copy_fields.
  apply (map_fold_weak_ind (fun acc m =>
    acc !! k = if bool_decide (k ∈ excluded) then item !! k
               else match m !! k with Some v => Some v | None => item !! k end)).
  - rewrite lookup_empty. by case_bool_decide.
  - intros i x m acc Hi IH.
    destruct (decide (i = k)) as [->|Hne].
    + rewrite (lookup_insert_eq m).
      destruct (bool_decide (k ∈ excluded)); [done|].
      by rewrite lookup_insert_eq.
    + rewrite (lookup_insert_ne m) by done.
      destruct (bool_decide (i ∈ excluded)); [done|].
      by rewrite lookup_insert_ne.
Qed.

Lemma new_item_lookup (item_id : string) (ts : Z) (name : value)
    (d : gmap string value) (k : string) :
  k ≠ "name" -> k ≠ "description" ->
  new_item item_id ts name d !! k =
    match d !! k with
    | Some v => Some v
    | None =>
        ({[ "itemId" := VStr item_id; "createdAt" := VInt ts;
            "updatedAt" := VInt ts ]} : gmap string value) !! k
    end.
Proof.
  intros Hn Hd. unfold new_item. rewrite copy_fields_lookup.
  rewrite bool_decide_eq_false_2 by key_list.
  destruct (d !! k); [done|].
  rewrite !lookup_insert. repeat case_decide; simplify_eq; done.
Qed.

Lemma new_item_name (item_id : string) (ts : Z) (name : value)
    (d : gmap string value) :
  new_item item_id ts name d !! "name" = Some name.
Proof.
  unfold new_item. rewrite copy_fields_lookup.
  rewrite bool_decide_eq_true_2 by key_list. done.
Qed.

Lemma new_item_description (item_id : string) (ts : Z) (name : value)
    (d : gmap string value) :
  new_item item_id ts name d !! "description"
  = Some (default (VStr "") (d !! "description")).
Proof.
  unfold new_item. rewrite copy_fields_lookup.
  rewrite bool_decide_eq_true_2 by key_list. done.
Qed.

(** ** The update request of Update *)

Lemma placeholder_inj (k1 k2 : string) :
  placeholder k1 = placeholder k2 -> k1 = k2.
Proof. unfold placeholder. cbn. intros [= E]. exact E. Qed.

Lemma apply_set_keys (ks : list string) (vals item : gmap string value)
    (f : string -> value) :
  (∀ k, k ∈ ks -> vals !! placeholder k = Some (f k)) ->
  ∃ item',
    apply_set ((fun k => (k, placeholder k)) <$> ks) vals item = Some item' ∧
    ∀ a, item' !! a = if bool_decide (a ∈ ks) then Some (f a) else item !! a.
Proof.
  revert item. induction ks as [|k ks IH]; intros item Hvals.
  - exists item. split; [done|]. intros a.
    rewrite bool_decide_eq_false_2; [done|apply not_elem_of_nil].
  - cbn [fmap list_fmap apply_set].
    rewrite (Hvals k) by (apply elem_of_cons; by left).
    destruct (IH (<[k := f k]> item)) as (item' & Hrun & Hlook).
    { intros k' Hk'. apply Hvals. apply elem_of_cons; by right. }
    exists item'. split; [exact Hrun|]. intros a. rewrite Hlook.
    destruct (decide (a = k)) as [->|Hne].
    + rewrite (bool_decide_eq_true_2 (k ∈ k :: ks)) by (apply elem_of_cons; by left).
      case_bool_decide; [done|]. by rewrite lookup_insert_eq.
    + rewrite lookup_insert_ne by done.
      apply (f_equal (fun b : bool => if b then Some (f a) else item !! a)).
      apply bool_decide_ext. rewrite elem_of_cons. naive_solver.
Qed.

Lemma update_request_spec (ts : Z) (d : gmap string value) :
  ∃ ks,
    (update_request ts d).1
      = (("updatedAt", ":updated_at") :: ((fun k => (k, placeholder k)) <$> ks)) ∧
    (∀ k, k ∈ ks <-> ((k ∉ ["itemId"; "createdAt"]) ∧ is_Some (d !! k))) ∧
    (∀ k, (update_request ts d).2 !! placeholder k =
            match (if bool_decide (k ∈ ["itemId"; "createdAt"])
                   then None else d !! k) with
            | Some v => Some v
            | None => if bool_decide (k = "updated_at")
                      then Some (VInt ts) else None
            end).
Proof.
  unfold update_request.
  apply (map_fold_weak_ind (fun acc m =>
    ∃ ks,
      acc.1 = (("updatedAt", ":updated_at")
                 :: ((fun k => (k, placeholder k)) <$> ks)) ∧
      (∀ k, k ∈ ks <-> ((k ∉ ["itemId"; "createdAt"]) ∧ is_Some (m !! k))) ∧
      (∀ k, acc.2 !! placeholder k =
              match (if bool_decide (k ∈ ["itemId"; "createdAt"])
                     then None else m !! k) with
              | Some v => Some v
              | None => if bool_decide (k = "updated_at")
                        then Some (VInt ts) else None
              end))).
  - exists []. split; [done|]. split.
    + intros k. rewrite lookup_empty, elem_of_nil. split; [done|].
      intros [_ [? [=]]].
    + intros k. cbn [snd]. rewrite lookup_empty.
      assert ((if bool_decide (k ∈ ["itemId"; "createdAt"])
               then None else None) = (None : option value)) as ->
        by (by case_bool_decide).
      case_bool_decide as Hk.
      * subst k. apply lookup_singleton_eq.
      * apply lookup_singleton_ne. intros E. apply Hk.
        by apply placeholder_inj.
  - intros i x m acc Hi (ks & Hexpr & Hks & Hvals).
    case_bool_decide as Hex.
    + exists ks. split; [done|]. split.
      * intros k. rewrite Hks. destruct (decide (k = i)) as [->|Hne].
        -- split; intros [Hk _]; by destruct Hk.
        -- by rewrite lookup_insert_ne.
      * intros k. rewrite Hvals. destruct (decide (k = i)) as [->|Hne].
        -- by rewrite !(bool_decide_eq_true_2 _ Hex).
        -- by rewrite lookup_insert_ne.
    + exists (ks ++ [i]). cbn [fst snd]. split.
      { rewrite Hexpr, fmap_app. done. }
      split.
      * intros k. rewrite elem_of_app, list_elem_of_singleton, Hks.
        destruct (decide (k = i)) as [->|Hne].
        -- rewrite lookup_insert_eq. naive_solver.
        -- rewrite lookup_insert_ne by done. naive_solver.
      * intros k. destruct (decide (k = i)) as [->|Hne].
        -- rewrite !lookup_insert_eq.
           by rewrite bool_decide_eq_false_2.
        -- rewrite lookup_insert_ne
             by (intros E; apply Hne; symmetry; by apply placeholder_inj).
           rewrite (lookup_insert_ne m) by done. apply Hvals.
Qed.

(** What the update request does to a stored item. [updatedAt] receives
    the value bound to [:updated_at], which is the timestamp unless the
    body has a key [updated_at]. *)
Lemma update_request_apply (ts : Z) (d old : gmap string value) :
  ∃ item',
    apply_set (update_request ts d).1 (update_request ts d).2 old
      = Some item' ∧
    ∀ a, item' !! a =
      if bool_decide (a ∈ ["itemId"; "createdAt"]) then old !! a
      else match d !! a with
           | Some v => Some v
           | None =>
               if bool_decide (a = "updatedAt")
               then Some (default (VInt ts) (d !! "updated_at"))
               else old !! a
           end.
Proof.
  destruct (update_request_spec ts d) as (ks & Hexpr & Hks & Hvals).
  rewrite Hexpr. cbn [apply_set].
  change ":updated_at" with (placeholder "updated_at").
  rewrite Hvals.
  rewrite (bool_decide_eq_false_2 ("updated_at" ∈ _)) by key_list.
  rewrite (bool_decide_eq_true_2 ("updated_at" = _)) by done.
  set (stamp := default (VInt ts) (d !! "updated_at")).
  assert (match d !! "updated_at" with
          | Some v => Some v
          | None => Some (VInt ts)
          end = Some stamp) as ->.
  { unfold stamp. by destruct (d !! "updated_at"). }
  destruct (apply_set_keys ks (update_request ts d).2
              (<["updatedAt" := stamp]> old)
              (fun k => default VNone (d !! k))) as (item' & Hrun & Hlook).
  { intros k Hk. apply Hks in Hk as [Hex [v Hv]].
    rewrite Hvals, bool_decide_eq_false_2, Hv by done. done. }
  exists item'. split; [exact Hrun|]. intros a. rewrite Hlook.
  case_bool_decide as Hin.
  - apply Hks in Hin as [Hex [v Hv]].
    rewrite bool_decide_eq_false_2, Hv by done. done.
  - case_bool_decide as Hex.
    + rewrite lookup_insert_ne; [done|]. intros <-. revert Hex. key_list.
    + destruct (d !! a) as [v|] eqn:Hv.
      { exfalso. apply Hin, Hks. eauto. }
      case_bool_decide as Hu.
      * subst a. by rewrite lookup_insert_eq.
      * by rewrite lookup_insert_ne.
Qed.

(** ** Runs of the table primitives *)

Ltac run_monad :=
  unfold mbind, M_mbind, M_bind, mret, M_mret, M_ret, try_except, raise,
    log, record_call, set_table, get_table;
  cbn [fst snd table ddb_calls metrics logs].

Lemma get_item_run (e : env) (k : string) (w : world) :
  ddb_fault e (GetItem k) = None ->
  get_item e k w
  = (Ok (table w !! k),
     World (table w) (ddb_calls w ++ [GetItem k]) (metrics w) (logs w)).
Proof.
  intros Hf. unfold get_item, ddb_request. run_monad. rewrite Hf. reflexivity.
Qed.

Lemma put_item_run (e : env) (item : gmap string value) (k : string)
    (w : world) :
  ddb_fault e (PutItem item) = None -> key_of item = Some k ->
  put_item e item w
  = (Ok tt,
     World (<[k := item]> (table w)) (ddb_calls w ++ [PutItem item])
       (metrics w) (logs w)).
Proof.
  intros Hf Hk. unfold put_item, ddb_request. run_monad. rewrite Hf, Hk.
  reflexivity.
Qed.

Lemma delete_item_run (e : env) (k : string) (w : world) :
  ddb_fault e (DeleteItem k) = None ->
  delete_item e k w
  = (Ok tt,
     World (delete k (table w)) (ddb_calls w ++ [DeleteItem k])
       (metrics w) (logs w)).
Proof.
  intros Hf. unfold delete_item, ddb_request. run_monad. rewrite Hf.
  reflexivity.
Qed.

Lemma update_item_run (e : env) (k : string) (expr : update_expr)
    (vals old item' : gmap string value) (w : world) :
  ddb_fault e (UpdateItem k expr vals) = None ->
  table w !! k = Some old ->
  apply_set expr vals old = Some item' ->
  update_item e k expr vals w
  = (Ok tt,
     World (<[k := item']> (table w)) (ddb_calls w ++ [UpdateItem k expr vals])
       (metrics w) (logs w)).
Proof.
  intros Hf Hold Hset. unfold update_item, ddb_request. run_monad.
  rewrite Hf. cbn [table]. rewrite Hold. unfold default, id. rewrite Hset.
  reflexivity.
Qed.

(** The metric block of Create: [context] is unbound there, the
    [NameError] is caught by the bare [except], nothing is published and
    nothing is logged. *)
Lemma processing_time_metric_swallowed (e : env) (w : world) :
  try_except
    (ctx ← load_global_context;
     publish_custom_metrics e (function_name ctx) "ProcessingTime"
       (VFloat (processing_time e)))
    any_exception (fun _ => mret tt) w
  = (Ok tt, w).
Proof. reflexivity. Qed.

(** ** Create *)

Lemma key_of_Some (item : gmap string value) (k : string) :
  key_of item = Some k <-> (item !! "itemId" = Some (VStr k) ∧ k ≠ "").
Proof.
  unfold key_of. destruct (item !! "itemId") as [[| | | |s| |]|];
    try (split; [discriminate|intros [[=] _]]).
  destruct (String.eqb_spec s "") as [->|Hne].
  - split; [discriminate|]. intros [[= <-] Hk]. done.
  - split.
    + intros [= <-]. done.
    + intros [[= <-] _]. done.
Qed.

Lemma str_uuid_nonempty (u : N) : str_uuid u ≠ "".
Proof.
  unfold str_uuid. destruct (substring 0 8 (hex_digits 32 u "")); discriminate.
Qed.

Lemma handle_create_item_run (e : env) (d : gmap string value) (name : value)
    (k : string) (rid : string) (w : world) :
  d !! "name" = Some name ->
  ddb_fault e (PutItem (created_item e d)) = None ->
  key_of (created_item e d) = Some k ->
  handle_create_item e (VDict d) rid w
  = (Ok (message_response 201 (str_uuid (uuid4 e)) "Item created successfully"),
     World (<[k := created_item e d]> (table w))
       (ddb_calls w ++ [PutItem (created_item e d)])
       (metrics w)
       (logs w ++ [(INFO, "Item created successfully")])).
Proof.
  intros Hname Hfault Hkey. unfold handle_create_item.
  rewrite object_body_dict by (apply (lookup_nonempty _ "name"); eauto).
  unfold required_fields, first_missing, subscript. rewrite Hname.
  unfold created_item in *. rewrite Hname in *. cbn [default] in *.
  unfold mbind at 1, M_mbind, M_bind at 1. unfold mret at 1, M_mret, M_ret at 1.
  unfold try_except at 1. unfold mbind at 1, M_bind at 1.
  rewrite (put_item_run e _ k) by done.
  reflexivity.
Qed.

Lemma created_item_key_plain (e : env) (d : gmap string value) :
  d !! "itemId" = None ->
  key_of (created_item e d) = Some (str_uuid (uuid4 e)).
Proof.
  intros Hid. apply key_of_Some. split; [|apply str_uuid_nonempty].
  unfold created_item. rewrite new_item_lookup by done. by rewrite Hid.
Qed.

Lemma created_item_reserved (e : env) (d : gmap string value) (k : string)
    (v : value) :
  k ∈ ["itemId"; "createdAt"; "updatedAt"] -> d !! k = Some v ->
  created_item e d !! k = Some v.
Proof.
  intros Hk Hv. unfold created_item.
  rewrite new_item_lookup, Hv; [done|intros ->; revert Hk; key_list..].
Qed.

(** Create issues exactly one call on the table, the put of the item it
    built, whether or not that put succeeds. *)
Lemma handle_create_item_calls (e : env) (d : gmap string value) (rid : string)
    (w : world) :
  is_Some (d !! "name") ->
  ddb_calls (handle_create_item e (VDict d) rid w).2
  = ddb_calls w ++ [PutItem (created_item e d)].
Proof.
  intros [name Hname]. unfold handle_create_item.
  rewrite object_body_dict by (apply (lookup_nonempty _ "name"); eauto).
  unfold required_fields, first_missing, subscript. rewrite Hname.
  unfold created_item. rewrite Hname.
  change (default VNone (Some name)) with name.
  unfold put_item, ddb_request. run_monad.
  destruct (ddb_fault e (PutItem _)) as [err|].
  - destruct (is_ClientError err); reflexivity.
  - destruct (key_of _); reflexivity.
Qed.

(** C1: for every create request whose body is a dictionary with key
    [name], when the put succeeds, [handle_create_item] returns status 201
    with body [{"itemId": <generated id>, "message": "Item created
    successfully"}], whatever the CloudWatch sink does; the block that
    emits the processing-time metric always ends normally and leaves the
    world as it was, because the [NameError] on [context] is caught. *)
Theorem create_returns_201 (e : env) (d : gmap string value) (rid : string)
    (w : world) :
  is_Some (d !! "name") ->
  put_succeeds e (created_item e d) ->
  (handle_create_item e (VDict d) rid w).1
    = Ok (Response 201 json_headers
            (VDict {[ "itemId" := VStr (str_uuid (uuid4 e));
                      "message" := VStr "Item created successfully" ]}))
  ∧ metrics (handle_create_item e (VDict d) rid w).2 = metrics w
  ∧ ∀ w0, try_except
            (ctx ← load_global_context;
             publish_custom_metrics e (function_name ctx) "ProcessingTime"
               (VFloat (processing_time e)))
            any_exception (fun _ => mret tt) w0
          = (Ok tt, w0).
Proof.
  intros [name Hname] [Hfault [k Hkey]].
  rewrite (handle_create_item_run e d name k) by done.
  split; [reflexivity|]. split; [reflexivity|].
  apply processing_time_metric_swallowed.
Qed.

(** C3: for every create request whose body is a dictionary with [name]
    and one of the keys [itemId], [createdAt], [updatedAt], the item sent
    to the table carries the caller's value under that key, while a
    successful create still answers 201 with the generated UUID; when the
    key is [itemId], the item is stored under the caller's identifier,
    not under the one returned. *)
Theorem create_copies_reserved_keys (e : env) (d : gmap string value)
    (k : string) (v : value) (rid : string) (w : world) :
  is_Some (d !! "name") ->
  k ∈ ["itemId"; "createdAt"; "updatedAt"] ->
  d !! k = Some v ->
  created_item e d !! k = Some v
  ∧ ddb_calls (handle_create_item e (VDict d) rid w).2
    = ddb_calls w ++ [PutItem (created_item e d)]
  ∧ (put_succeeds e (created_item e d) ->
     (handle_create_item e (VDict d) rid w).1
       = Ok (Response 201 json_headers
               (VDict {[ "itemId" := VStr (str_uuid (uuid4 e));
                         "message" := VStr "Item created successfully" ]}))
     ∧ (k = "itemId" ->
        ∃ s, v = VStr s ∧
             table (handle_create_item e (VDict d) rid w).2
             = <[s := created_item e d]> (table w))).
Proof.
  intros Hname Hk Hv.
  pose proof (created_item_reserved e d k v Hk Hv) as Hitem.
  split; [exact Hitem|]. split; [by apply handle_create_item_calls|].
  intros [Hfault [s Hkey]]. destruct Hname as [name Hname].
  rewrite (handle_create_item_run e d name s) by done.
  split; [reflexivity|]. intros ->. exists s.
  apply key_of_Some in Hkey as [Hs _]. rewrite Hitem in Hs.
  split; [congruence|reflexivity].
Qed.

(** C7, as the code has it: for every create request whose body is a
    non-empty dictionary without key [name], [handle_create_item] returns
    400 with body [{"error": "Missing required field: name"}]; it makes
    no call on the table, whose content is unchanged. *)
Theorem create_missing_name (e : env) (d : gmap string value) (rid : string)
    (w : world) :
  d ≠ ∅ ->
  d !! "name" = None ->
  (handle_create_item e (VDict d) rid w).1
    = Ok (error_response 400 "Missing required field: name")
  ∧ table (handle_create_item e (VDict d) rid w).2 = table w
  ∧ ddb_calls (handle_create_item e (VDict d) rid w).2 = ddb_calls w.
Proof.
  intros Hd Hname. unfold handle_create_item.
  rewrite object_body_dict by done.
  unfold required_fields, first_missing. rewrite Hname.
  repeat split.
Qed.

Lemma create_returns_201_witness :
  is_Some (widget_body !! "name")
  ∧ put_succeeds (sample_env sample_uuid 1700000000)
      (created_item (sample_env sample_uuid 1700000000) widget_body)
  ∧ (handle_create_item (sample_env sample_uuid 1700000000)
       (VDict widget_body) "req-1" empty_world).1
    = Ok (Response 201 json_headers
            (VDict {[ "itemId" := VStr "123e4567-e89b-42d3-a456-426614174000";
                      "message" := VStr "Item created successfully" ]})).
Proof.
  assert (is_Some (widget_body !! "name")) as H1 by (vm_compute; eauto).
  assert (put_succeeds (sample_env sample_uuid 1700000000)
            (created_item (sample_env sample_uuid 1700000000) widget_body))
    as H2 by (split; [reflexivity|vm_compute; eauto]).
  split; [exact H1|]. split; [exact H2|].
  exact (proj1 (create_returns_201 (sample_env sample_uuid 1700000000)
                  widget_body "req-1" empty_world H1 H2)).
Defined.

Lemma create_copies_reserved_keys_witness :
  created_item (sample_env sample_uuid 1700000000) body_with_itemId !! "itemId"
  = Some (VStr "custom")
  ∧ (handle_create_item (sample_env sample_uuid 1700000000)
       (VDict body_with_itemId) "req-1" empty_world).1
    = Ok (Response 201 json_headers
            (VDict {[ "itemId" := VStr "123e4567-e89b-42d3-a456-426614174000";
                      "message" := VStr "Item created successfully" ]}))
  ∧ ∃ s, VStr "custom" = VStr s
         ∧ table (handle_create_item (sample_env sample_uuid 1700000000)
                    (VDict body_with_itemId) "req-1" empty_world).2
           = <[s := created_item (sample_env sample_uuid 1700000000)
                      body_with_itemId]> ∅.
Proof.
  assert (is_Some (body_with_itemId !! "name")) as H1 by (vm_compute; eauto).
  assert ("itemId" ∈ ["itemId"; "createdAt"; "updatedAt"]) as H2
    by (apply elem_of_cons; by left).
  assert (body_with_itemId !! "itemId" = Some (VStr "custom")) as H3
    by (reflexivity).
  assert (put_succeeds (sample_env sample_uuid 1700000000)
            (created_item (sample_env sample_uuid 1700000000) body_with_itemId))
    as H4 by (split; [reflexivity|vm_compute; eauto]).
  destruct (create_copies_reserved_keys (sample_env sample_uuid 1700000000)
              body_with_itemId "itemId" (VStr "custom") "req-1"
              empty_world H1 H2 H3) as (Hitem & _ & Hput).
  destruct (Hput H4) as [Hresp Hkey].
  split; [exact Hitem|]. split; [exact Hresp|exact (Hkey eq_refl)].
Defined.

Lemma create_missing_name_witness :
  (handle_create_item (sample_env sample_uuid 1700000000)
     (VDict description_only) "req-1" empty_world).1
  = Ok (error_response 400 "Missing required field: name").
Proof.
  assert (description_only ≠ ∅) as H1.
  { apply (lookup_nonempty _ "description"). vm_compute. eauto. }
  assert (description_only !! "name" = None) as H2 by (reflexivity).
  exact (proj1 (create_missing_name (sample_env sample_uuid 1700000000)
                  description_only "req-1" empty_world H1 H2)).
Defined.

(** The empty dictionary is a dictionary without [name], and Create
    answers it with the invalid-input error, not the missing-field one. *)
Lemma create_empty_body_invalid_input :
  (∅ : gmap string value) !! "name" = None
  ∧ (handle_create_item (sample_env sample_uuid 1700000000) (VDict ∅)
       "req-1" empty_world).1
    = Ok (error_response 400 "Invalid input: body must be a JSON object")
  ∧ (handle_create_item (sample_env sample_uuid 1700000000) (VDict ∅)
       "req-1" empty_world).1
    ≠ Ok (error_response 400 "Missing required field: name").
Proof.
  split; [reflexivity|]. split; [reflexivity|].
  intros H. apply (f_equal (fun r => match r with
                                     | Ok (Response _ _ (VDict b)) => b !! "error"
                                     | _ => None
                                     end)) in H.
  vm_compute in H. discriminate.
Qed.

(** C2 at a body that carries its own [itemId]: Create answers 201 with
    the generated identifier, the item is stored under the caller's
    identifier, and Get with the returned identifier answers 404. *)
Lemma create_with_itemId_then_get :
  (handle_create_item (sample_env sample_uuid 1700000000)
     (VDict body_with_itemId) "req-1" empty_world).1
  = Ok (message_response 201 sample_id "Item created successfully")
  ∧ dom (table (handle_create_item (sample_env sample_uuid 1700000000)
                  (VDict body_with_itemId) "req-1" empty_world).2)
    = {[ "custom" ]}
  ∧ (handle_get_item (sample_env sample_uuid 1700000001) sample_id "req-2"
       (handle_create_item (sample_env sample_uuid 1700000000)
          (VDict body_with_itemId) "req-1" empty_world).2).1
    = Ok (error_response 404 "Item not found").
Proof. cbv zeta. repeat split; reflexivity. Qed.

(** ** Get, Update and Delete on a table that answers *)

Lemma eqb_nonempty (s : string) : s ≠ "" -> String.eqb s "" = false.
Proof. intros Hs. by apply String.eqb_neq. Qed.

Lemma handle_get_item_run (e : env) (item_id rid : string) (w : world) :
  item_id ≠ "" ->
  ddb_fault e (GetItem item_id) = None ->
  handle_get_item e item_id rid w
  = match table w !! item_id with
    | Some item =>
        (Ok (Response 200 json_headers (VDict item)),
         World (table w) (ddb_calls w ++ [GetItem item_id]) (metrics w)
           (logs w ++ [(INFO, "Item retrieved successfully")]))
    | None =>
        (Ok (error_response 404 "Item not found"),
         World (table w) (ddb_calls w ++ [GetItem item_id]) (metrics w)
           (logs w ++ [(INFO, "Item not found")]))
    end.
Proof.
  intros Hid Hf. unfold handle_get_item. rewrite eqb_nonempty by done.
  unfold try_except, mbind, M_mbind, M_bind at 1.
  rewrite get_item_run by done.
  destruct (table w !! item_id); reflexivity.
Qed.

Lemma handle_update_item_missing (e : env) (item_id rid : string)
    (d : gmap string value) (w : world) :
  item_id ≠ "" -> d ≠ ∅ ->
  ddb_fault e (GetItem item_id) = None ->
  table w !! item_id = None ->
  handle_update_item e item_id (VDict d) rid w
  = (Ok (error_response 404 "Item not found"),
     World (table w) (ddb_calls w ++ [GetItem item_id]) (metrics w)
       (logs w ++ [(INFO, "Item not found for update")])).
Proof.
  intros Hid Hd Hf Hnone. unfold handle_update_item.
  rewrite eqb_nonempty, object_body_dict by done.
  unfold try_except, mbind, M_mbind, M_bind at 1.
  rewrite get_item_run by done. rewrite Hnone. reflexivity.
Qed.

Lemma handle_update_item_found (e : env) (item_id rid : string)
    (d old item' : gmap string value) (w : world) :
  item_id ≠ "" -> d ≠ ∅ ->
  fault_free e ->
  table w !! item_id = Some old ->
  apply_set (update_request (time_time e) d).1
    (update_request (time_time e) d).2 old = Some item' ->
  handle_update_item e item_id (VDict d) rid w
  = (Ok (message_response 200 item_id "Item updated successfully"),
     World (<[item_id := item']> (table w))
       (ddb_calls w ++
          [GetItem item_id;
           UpdateItem item_id (update_request (time_time e) d).1
             (update_request (time_time e) d).2])
       (metrics w)
       (logs w ++ [(INFO, "Item updated successfully")])).
Proof.
  intros Hid Hd Hf Hold Hset. unfold handle_update_item.
  rewrite eqb_nonempty, object_body_dict by done.
  unfold try_except, mbind, M_mbind, M_bind at 1.
  rewrite get_item_run by apply Hf. rewrite Hold.
  unfold M_bind at 1.
  rewrite (update_item_run e item_id _ _ old item');
    [|apply Hf|exact Hold|exact Hset].
  cbn [ddb_calls]. rewrite <- app_assoc. reflexivity.
Qed.

Lemma handle_update_item_invalid (e : env) (item_id rid : string) (w : world) :
  item_id ≠ "" ->
  handle_update_item e item_id (VDict ∅) rid w
  = (Ok (error_response 400 "Invalid input: body must be a JSON object"),
     World (table w) (ddb_calls w) (metrics w)
       (logs w ++ [(WARNING, "Invalid input: body must be a JSON object")])).
Proof.
  intros Hid. unfold handle_update_item. rewrite eqb_nonempty by done.
  reflexivity.
Qed.

Lemma handle_delete_item_run (e : env) (item_id rid : string) (w : world) :
  item_id ≠ "" ->
  fault_free e ->
  handle_delete_item e item_id rid w
  = match table w !! item_id with
    | Some _ =>
        (Ok (message_response 200 item_id "Item deleted successfully"),
         World (delete item_id (table w))
           (ddb_calls w ++ [GetItem item_id; DeleteItem item_id]) (metrics w)
           (logs w ++ [(INFO, "Item deleted successfully")]))
    | None =>
        (Ok (error_response 404 "Item not found"),
         World (table w) (ddb_calls w ++ [GetItem item_id]) (metrics w)
           (logs w ++ [(INFO, "Item not found for deletion")]))
    end.
Proof.
  intros Hid Hf. unfold handle_delete_item. rewrite eqb_nonempty by done.
  unfold try_except, mbind, M_mbind, M_bind at 1.
  rewrite get_item_run by apply Hf.
  destruct (table w !! item_id); [|reflexivity].
  unfold M_bind at 1. rewrite delete_item_run by apply Hf.
  cbn [ddb_calls]. rewrite <- app_assoc. reflexivity.
Qed.

Lemma table_ok_nonempty_key (t : gmap string (gmap string value))
    (k : string) :
  table_ok t -> is_Some (t !! k) -> k ≠ "".
Proof.
  intros Hok [item Hitem]. apply Hok in Hitem.
  apply key_of_Some in Hitem as [_ Hk]. exact Hk.
Qed.

(** ** Update *)

(** C5, as the code has it: for every update of an existing item with a
    non-empty dictionary body that has neither key [updatedAt] nor key
    [updated_at], when the calls on the table succeed, the handler answers
    200 and replaces the stored item by one in which [itemId] and
    [createdAt] keep their stored values whatever the body says, every
    other body key holds the body's value, [updatedAt] is the current
    timestamp, and every field that the body does not name is as it
    was. *)
Theorem update_merges_fields (e : env) (item_id rid : string)
    (d old : gmap string value) (w : world) :
  table_ok (table w) ->
  table w !! item_id = Some old ->
  d ≠ ∅ ->
  d !! "updatedAt" = None ->
  d !! "updated_at" = None ->
  fault_free e ->
  ∃ item',
    (handle_update_item e item_id (VDict d) rid w).1
      = Ok (message_response 200 item_id "Item updated successfully")
    ∧ table (handle_update_item e item_id (VDict d) rid w).2
      = <[item_id := item']> (table w)
    ∧ item' !! "itemId" = old !! "itemId"
    ∧ item' !! "createdAt" = old !! "createdAt"
    ∧ item' !! "updatedAt" = Some (VInt (time_time e))
    ∧ (∀ k v, k ∉ ["itemId"; "createdAt"] -> d !! k = Some v ->
              item' !! k = Some v)
    ∧ (∀ k, k ≠ "updatedAt" -> d !! k = None -> item' !! k = old !! k).
Proof.
  intros Hok Hold Hd Hu1 Hu2 Hf.
  assert (item_id ≠ "") as Hid by (eapply table_ok_nonempty_key; eauto).
  destruct (update_request_apply (time_time e) d old) as (item' & Hset & Hlook).
  exists item'.
  rewrite (handle_update_item_found e item_id rid d old item') by done.
  split; [reflexivity|]. split; [reflexivity|].
  split; [|split; [|split; [|split]]].
  - rewrite Hlook. by rewrite bool_decide_eq_true_2 by key_list.
  - rewrite Hlook. by rewrite bool_decide_eq_true_2 by key_list.
  - rewrite Hlook, Hu1, Hu2.
    by rewrite bool_decide_eq_false_2 by key_list.
  - intros k v Hk Hv. rewrite Hlook, Hv.
    by rewrite bool_decide_eq_false_2.
  - intros k Hk Hv. rewrite Hlook, Hv.
    case_bool_decide; [done|]. by rewrite bool_decide_eq_false_2.
Qed.

(** C6, as the code has it: for every update request with a non-empty
    identifier and a non-empty dictionary body, when the lookup of the
    existence check is answered and the table holds no item at that key,
    [handle_update_item] returns 404 with body [{"error": "Item not
    found"}]; the lookup is the only call made on the table, so nothing is
    created and the table is unchanged. *)
Theorem update_missing_item (e : env) (item_id rid : string)
    (d : gmap string value) (w : world) :
  item_id ≠ "" ->
  d ≠ ∅ ->
  ddb_fault e (GetItem item_id) = None ->
  table w !! item_id = None ->
  (handle_update_item e item_id (VDict d) rid w).1
    = Ok (Response 404 json_headers (VDict {[ "error" := VStr "Item not found" ]}))
  ∧ table (handle_update_item e item_id (VDict d) rid w).2 = table w
  ∧ ddb_calls (handle_update_item e item_id (VDict d) rid w).2
    = ddb_calls w ++ [GetItem item_id].
Proof.
  intros Hid Hd Hf Hnone.
  rewrite handle_update_item_missing by done. repeat split.
Qed.

(** ** Delete *)

(** C8, as the code has it: for every identifier present in the table,
    Delete returns 200 with body [{"itemId": <id>, "message": "Item deleted
    successfully"}] and removes the item, so that a following Get on the
    identifier returns 404; for every non-empty identifier absent from the
    table, Delete returns 404 with body [{"error": "Item not found"}] and
    leaves the table unchanged. The calls on the table are taken to
    succeed. *)
Theorem delete_then_get (e e' : env) (item_id rid rid' : string) (w : world) :
  table_ok (table w) ->
  fault_free e ->
  fault_free e' ->
  (is_Some (table w !! item_id) ->
     (handle_delete_item e item_id rid w).1
       = Ok (message_response 200 item_id "Item deleted successfully")
     ∧ table (handle_delete_item e item_id rid w).2 = delete item_id (table w)
     ∧ (handle_get_item e' item_id rid'
          (handle_delete_item e item_id rid w).2).1
       = Ok (error_response 404 "Item not found"))
  ∧ (table w !! item_id = None -> item_id ≠ "" ->
     (handle_delete_item e item_id rid w).1
       = Ok (error_response 404 "Item not found")
     ∧ table (handle_delete_item e item_id rid w).2 = table w).
Proof.
  intros Hok Hf Hf'. split.
  - intros Hsome.
    assert (item_id ≠ "") as Hid by (eapply table_ok_nonempty_key; eauto).
    rewrite handle_delete_item_run by done.
    destruct Hsome as [item ->].
    split; [reflexivity|]. split; [reflexivity|].
    rewrite handle_get_item_run by (done || apply Hf').
    cbn [snd table]. by rewrite lookup_delete_eq.
  - intros Hnone Hid. rewrite handle_delete_item_run by done.
    rewrite Hnone. split; reflexivity.
Qed.

Lemma sample_env_fault_free (u : N) (now : Z) : fault_free (sample_env u now).
Proof. intros c. reflexivity. Qed.

Lemma world_with_widget_ok : table_ok (table world_with_widget).
Proof.
  apply map_Forall_singleton. reflexivity.
Qed.

Lemma update_merges_fields_witness :
  ∃ item' : gmap string value,
    (handle_update_item (sample_env sample_uuid 200) "item-1"
       (VDict description_B) "req-1" world_with_widget).1
      = Ok (message_response 200 "item-1" "Item updated successfully")
    ∧ item' !! "createdAt" = Some (VInt 100)
    ∧ item' !! "updatedAt" = Some (VInt 200)
    ∧ item' !! "description" = Some (VStr "B")
    ∧ item' !! "name" = Some (VStr "Widget").
Proof.
  assert (table world_with_widget !! "item-1" = Some stored_widget) as Hold
    by (reflexivity).
  assert (description_B ≠ ∅) as Hd.
  { apply (lookup_nonempty _ "description"). vm_compute. eauto. }
  destruct (update_merges_fields (sample_env sample_uuid 200) "item-1" "req-1"
              description_B stored_widget world_with_widget
              world_with_widget_ok Hold Hd eq_refl eq_refl
              (sample_env_fault_free _ _))
    as (item' & Hresp & _ & _ & Hc & Hu & Hset & Hkeep).
  exists item'. split; [exact Hresp|]. split; [exact Hc|]. split; [exact Hu|].
  split.
  - apply Hset; [key_list|reflexivity].
  - rewrite Hkeep; [reflexivity|discriminate|reflexivity].
Defined.

(** An update of an existing item with the empty dictionary as body is
    rejected with 400: [updatedAt] keeps its stored value and is not set
    to the current timestamp. *)
Lemma update_empty_body_rejected :
  table world_with_widget !! "item-1" = Some stored_widget
  ∧ (handle_update_item (sample_env sample_uuid 200) "item-1" (VDict ∅)
       "req-1" world_with_widget).1
    = Ok (error_response 400 "Invalid input: body must be a JSON object")
  ∧ table (handle_update_item (sample_env sample_uuid 200) "item-1" (VDict ∅)
             "req-1" world_with_widget).2 !! "item-1" ≫= (.!! "updatedAt")
    = Some (VInt 100)
  ∧ VInt 100 ≠ VInt (time_time (sample_env sample_uuid 200)).
Proof.
  split; [reflexivity|]. split; [reflexivity|].
  split; [reflexivity|]. discriminate.
Qed.

Lemma update_missing_item_witness :
  (handle_update_item (sample_env sample_uuid 200) "item-2"
     (VDict description_B) "req-1" world_with_widget).1
  = Ok (Response 404 json_headers (VDict {[ "error" := VStr "Item not found" ]}))
  ∧ table (handle_update_item (sample_env sample_uuid 200) "item-2"
             (VDict description_B) "req-1" world_with_widget).2
    = table world_with_widget
  ∧ ddb_calls (handle_update_item (sample_env sample_uuid 200) "item-2"
                 (VDict description_B) "req-1" world_with_widget).2
    = [GetItem "item-2"].
Proof.
  assert ("item-2" ≠ "") as Hid by discriminate.
  assert (description_B ≠ ∅) as Hd.
  { apply (lookup_nonempty _ "description"). vm_compute. eauto. }
  exact (update_missing_item (sample_env sample_uuid 200) "item-2" "req-1"
           description_B world_with_widget Hid Hd eq_refl eq_refl).
Defined.

(** An update with the empty dictionary as body of an identifier under
    which the table holds nothing: the body guard comes before the
    existence check, the answer is 400 and not 404, and no lookup is
    made. *)
Lemma update_missing_item_empty_body :
  table world_with_widget !! "item-2" = None
  ∧ (handle_update_item (sample_env sample_uuid 200) "item-2" (VDict ∅)
       "req-1" world_with_widget).1
    = Ok (Response 400 json_headers
            (VDict {[ "error" := VStr "Invalid input: body must be a JSON object" ]}))
  ∧ ddb_calls (handle_update_item (sample_env sample_uuid 200) "item-2"
                 (VDict ∅) "req-1" world_with_widget).2
    = []
  ∧ (handle_update_item (sample_env sample_uuid 200) "item-2" (VDict ∅)
       "req-1" world_with_widget).1
    ≠ Ok (Response 404 json_headers (VDict {[ "error" := VStr "Item not found" ]})).
Proof.
  split; [reflexivity|]. split; [reflexivity|]. split; [reflexivity|].
  intros H. apply (f_equal (fun r => match r with
                                     | Ok resp => statusCode resp
                                     | Raise _ => 0
                                     end)) in H.
  vm_compute in H. discriminate H.
Qed.

Lemma delete_then_get_witness :
  ((handle_delete_item (sample_env sample_uuid 200) "item-1" "req-1"
      world_with_widget).1
   = Ok (message_response 200 "item-1" "Item deleted successfully")
   ∧ (handle_get_item (sample_env sample_uuid 201) "item-1" "req-2"
        (handle_delete_item (sample_env sample_uuid 200) "item-1" "req-1"
           world_with_widget).2).1
     = Ok (error_response 404 "Item not found"))
  ∧ (handle_delete_item (sample_env sample_uuid 200) "item-2" "req-1"
       world_with_widget).1
    = Ok (error_response 404 "Item not found").
Proof.
  split.
  - destruct (delete_then_get (sample_env sample_uuid 200)
                (sample_env sample_uuid 201) "item-1" "req-1" "req-2"
                world_with_widget world_with_widget_ok
                (sample_env_fault_free _ _) (sample_env_fault_free _ _))
      as [Hpresent _].
    destruct Hpresent as (Hresp & _ & Hget).
    { exists stored_widget. reflexivity. }
    split; [exact Hresp|exact Hget].
  - destruct (delete_then_get (sample_env sample_uuid 200)
                (sample_env sample_uuid 201) "item-2" "req-1" "req-2"
                world_with_widget world_with_widget_ok
                (sample_env_fault_free _ _) (sample_env_fault_free _ _))
      as [_ Habsent].
    destruct Habsent as [Hresp _]; [reflexivity|discriminate|].
    exact Hresp.
Defined.

(** The empty identifier is not in the table, and Delete answers it with
    400, not 404. *)
Lemma delete_empty_identifier :
  table empty_world !! "" = None
  ∧ (handle_delete_item (sample_env sample_uuid 200) "" "req-1" empty_world).1
    = Ok (error_response 400 "Item ID is required for deletion")
  ∧ (handle_delete_item (sample_env sample_uuid 200) "" "req-1" empty_world).1
    ≠ Ok (error_response 404 "Item not found").
Proof.
  split; [reflexivity|]. split; [reflexivity|].
  intros H. apply (f_equal (fun r => match r with
                                     | Ok resp => statusCode resp
                                     | Raise _ => 0
                                     end)) in H.
  vm_compute in H. discriminate.
Qed.

(** ** Create, then Update, then Get *)

Lemma name_A_lookup (k : string) :
  name_A !! k = if bool_decide (k = "name") then Some (VStr "A") else None.
Proof.
  unfold name_A. case_bool_decide as Hk.
  - subst k. apply lookup_singleton_eq.
  - by apply lookup_singleton_ne.
Qed.

Lemma description_B_lookup (k : string) :
  description_B !! k
  = if bool_decide (k = "description") then Some (VStr "B") else None.
Proof.
  unfold description_B. case_bool_decide as Hk.
  - subst k. apply lookup_singleton_eq.
  - by apply lookup_singleton_ne.
Qed.

(** C10, as the code has it: for every run of create with body
    [{"name": "A"}], update of that item with body [{"description": "B"}]
    and get of that item, on a table that answers, the item returned has
    [name] A and [description] B, its [createdAt] is the clock reading
    (whole seconds) of the create and its [updatedAt] the reading of the
    update; so [updatedAt > createdAt] holds exactly when the update
    reads a later second than the create. *)
Theorem create_update_get (e1 e2 e3 : env) (rid1 rid2 rid3 : string)
    (w : world) :
  fault_free e1 -> fault_free e2 -> fault_free e3 ->
  let item_id := str_uuid (uuid4 e1) in
  let created := handle_create_item e1 (VDict name_A) rid1 w in
  let updated :=
    handle_update_item e2 item_id (VDict description_B) rid2 created.2 in
  created.1 = Ok (message_response 201 item_id "Item created successfully")
  ∧ updated.1 = Ok (message_response 200 item_id "Item updated successfully")
  ∧ ∃ item : gmap string value,
      (handle_get_item e3 item_id rid3 updated.2).1
        = Ok (Response 200 json_headers (VDict item))
      ∧ item !! "name" = Some (VStr "A")
      ∧ item !! "description" = Some (VStr "B")
      ∧ item !! "createdAt" = Some (VInt (time_time e1))
      ∧ item !! "updatedAt" = Some (VInt (time_time e2))
      ∧ (updated_after_created item = true <-> time_time e1 < time_time e2).
Proof.
  intros Hf1 Hf2 Hf3 item_id created updated.
  assert (name_A !! "name" = Some (VStr "A")) as Hname
    by (by rewrite name_A_lookup).
  assert (key_of (created_item e1 name_A) = Some item_id) as Hkey.
  { apply created_item_key_plain. by rewrite name_A_lookup. }
  assert (created = (Ok (message_response 201 item_id
                           "Item created successfully"),
                     World (<[item_id := created_item e1 name_A]> (table w))
                       (ddb_calls w ++ [PutItem (created_item e1 name_A)])
                       (metrics w)
                       (logs w ++ [(INFO, "Item created successfully")])))
    as Hcreated.
  { unfold created.
    apply (handle_create_item_run e1 name_A (VStr "A"));
      [exact Hname|apply Hf1|exact Hkey]. }
  destruct (update_request_apply (time_time e2) description_B
              (created_item e1 name_A)) as (item & Hset & Hlook).
  assert (description_B ≠ ∅) as Hd.
  { apply (lookup_nonempty _ "description").
    rewrite description_B_lookup. by eexists. }
  assert (updated = (Ok (message_response 200 item_id
                           "Item updated successfully"),
            World
              (<[item_id := item]> (table created.2))
              (ddb_calls created.2 ++
                 [GetItem item_id;
                  UpdateItem item_id
                    (update_request (time_time e2) description_B).1
                    (update_request (time_time e2) description_B).2])
              (metrics created.2)
              (logs created.2 ++ [(INFO, "Item updated successfully")])))
    as Hupdated.
  { unfold updated.
    apply (handle_update_item_found e2 item_id rid2 description_B
             (created_item e1 name_A) item);
      [apply str_uuid_nonempty|exact Hd|exact Hf2| |exact Hset].
    rewrite Hcreated. cbn [snd table]. apply lookup_insert_eq. }
  split; [by rewrite Hcreated|]. split; [by rewrite Hupdated|].
  exists item.
  assert (item !! "createdAt" = Some (VInt (time_time e1))) as Hc.
  { rewrite Hlook. rewrite bool_decide_eq_true_2 by key_list.
    unfold created_item. rewrite new_item_lookup by discriminate.
    by rewrite name_A_lookup. }
  assert (item !! "updatedAt" = Some (VInt (time_time e2))) as Hu.
  { rewrite Hlook. rewrite bool_decide_eq_false_2 by key_list.
    by rewrite !description_B_lookup. }
  split; [|split; [|split; [|split; [exact Hc|split; [exact Hu|]]]]].
  - rewrite handle_get_item_run; [|apply str_uuid_nonempty|apply Hf3].
    rewrite Hupdated. cbn [snd table]. by rewrite lookup_insert_eq.
  - rewrite Hlook. rewrite bool_decide_eq_false_2 by key_list.
    rewrite description_B_lookup.
    rewrite !bool_decide_eq_false_2 by discriminate.
    unfold created_item. apply new_item_name.
  - rewrite Hlook. rewrite bool_decide_eq_false_2 by key_list.
    by rewrite description_B_lookup.
  - unfold updated_after_created. rewrite Hc, Hu. apply Z.ltb_lt.
Qed.
Lemma create_update_get_witness :
  ∃ item : gmap string value,
    (handle_get_item (sample_env sample_uuid 1700000009) sample_id "req-3"
       (handle_update_item (sample_env sample_uuid 1700000005) sample_id
          (VDict description_B) "req-2"
          (handle_create_item (sample_env sample_uuid 1700000000)
             (VDict name_A) "req-1" empty_world).2).2).1
    = Ok (Response 200 json_headers (VDict item))
    ∧ item !! "name" = Some (VStr "A")
    ∧ item !! "description" = Some (VStr "B")
    ∧ updated_after_created item = true.
Proof.
  destruct (create_update_get (sample_env sample_uuid 1700000000)
              (sample_env sample_uuid 1700000005)
              (sample_env sample_uuid 1700000009) "req-1" "req-2" "req-3"
              empty_world (sample_env_fault_free _ _)
              (sample_env_fault_free _ _) (sample_env_fault_free _ _))
    as (_ & _ & item & Hget & Hn & Hd & _ & _ & Hlater).
  exists item. split; [exact Hget|]. split; [exact Hn|]. split; [exact Hd|].
  apply Hlater. reflexivity.
Defined.


(** Create and update within the same clock second: Get answers 200
    with an item whose [updatedAt] equals its [createdAt], so it is not
    greater. *)
Lemma update_in_same_second :
  let got :=
    returned_item
      (handle_get_item (sample_env sample_uuid 1700000000) sample_id "req-3"
         (handle_update_item (sample_env sample_uuid 1700000000) sample_id
            (VDict description_B) "req-2"
            (handle_create_item (sample_env sample_uuid 1700000000)
               (VDict name_A) "req-1" empty_world).2).2).1 in
  got ≫= (.!! "createdAt") = Some (VInt 1700000000)
  ∧ got ≫= (.!! "updatedAt") = Some (VInt 1700000000)
  ∧ updated_after_created <$> got = Some false.
Proof. cbv zeta. repeat split; reflexivity. Qed.

(** ** The dispatcher *)


(** How the parse of the body ends. *)
Lemma parse_body_readable (json_loads : string -> loaded) (ev : event) :
  body_readable json_loads ev = true ->
  ∃ body, parse_body json_loads (event_body ev) = Ok body.
Proof.
  unfold body_readable, parse_body.
  destruct (event_body ev) as [| | | |s| |]; cbn [truthy is_str andb];
    rewrite ?andb_false_r; eauto.
  destruct (String.eqb s ""); cbn [negb andb orb]; [eauto|].
  destruct (json_loads s); [eauto|eauto|discriminate].
Qed.

Lemma parse_body_unreadable (json_loads : string -> loaded) (ev : event) :
  body_readable json_loads ev = false ->
  ∃ s err, event_body ev = VStr s ∧ s ≠ "" ∧ json_loads s = LoadError err
           ∧ parse_body json_loads (event_body ev) = Raise err.
Proof.
  unfold body_readable, parse_body.
  destruct (event_body ev) as [| | | |s| |]; try discriminate.
  cbn [truthy is_str andb].
  destruct (String.eqb_spec s "") as [->|Hs]; cbn [negb andb orb];
    [discriminate|].
  destruct (json_loads s) as [v| |err] eqn:Hload; try discriminate.
  intros _. by exists s, err.
Qed.

(** An exception of the parse leaves the dispatcher before anything is
    logged, called or published. *)
Lemma handler_raises (json_loads : string -> loaded) (e : env) (ev : event)
    (ctx : context) (w : world) (err : exn) :
  parse_body json_loads (event_body ev) = Raise err ->
  handler json_loads e ev ctx w = (Raise err, w).
Proof.
  intros Hbody. unfold handler. cbv zeta.
  unfold mbind at 1, M_mbind, M_bind at 1, of_result. by rewrite Hbody.
Qed.




(** ** Runs of several invocations *)

(** What one invocation can do to the table. *)
Lemma serve_table (e : env) (r : request) (w : world) :
  table (serve e r w).2 = table w
  ∨ (∃ d k, r = Create (VDict d)
            ∧ key_of (created_item e d) = Some k
            ∧ table (serve e r w).2 = <[k := created_item e d]> (table w))
  ∨ (∃ item_id d old item',
        r = Update item_id (VDict d)
        ∧ table w !! item_id = Some old
        ∧ apply_set (update_request (time_time e) d).1
            (update_request (time_time e) d).2 old = Some item'
        ∧ table (serve e r w).2 = <[item_id := item']> (table w))
  ∨ (∃ item_id, r = Delete item_id
                ∧ table (serve e r w).2 = delete item_id (table w)).
Proof.
  destruct r as [body|item_id|item_id body|item_id]; cbn [serve].
  - unfold handle_create_item.
    destruct (object_body body) as [d|] eqn:Hbody; [|left; reflexivity].
    apply object_body_Some in Hbody as [-> Hd].
    unfold required_fields, first_missing, subscript.
    destruct (d !! "name") as [name|] eqn:Hname; [|left; reflexivity].
    unfold put_item, ddb_request. run_monad.
    destruct (ddb_fault e (PutItem _)) as [err|].
    { left. destruct (is_ClientError err); reflexivity. }
    destruct (key_of _) as [k|] eqn:Hkey; [|left; reflexivity].
    right. left. exists d, k. unfold created_item. rewrite Hname.
    split; [done|]. split; [exact Hkey|reflexivity].
  - left. unfold handle_get_item.
    destruct (String.eqb item_id ""); [reflexivity|].
    unfold get_item, ddb_request. run_monad.
    destruct (ddb_fault e (GetItem item_id)) as [err|].
    { destruct (is_ClientError err); reflexivity. }
    cbn [table]. destruct (table w !! item_id); reflexivity.
  - unfold handle_update_item.
    destruct (String.eqb item_id ""); [left; reflexivity|].
    destruct (object_body body) as [d|] eqn:Hbody; [|left; reflexivity].
    apply object_body_Some in Hbody as [-> Hd].
    unfold get_item, update_item, ddb_request. run_monad.
    destruct (ddb_fault e (GetItem item_id)) as [err|].
    { left. destruct (is_ClientError err); reflexivity. }
    cbn [table].
    destruct (table w !! item_id) as [old|] eqn:Hold; [|left; reflexivity].
    destruct (ddb_fault e (UpdateItem _ _ _)) as [err|].
    { left. destruct (is_ClientError err); reflexivity. }
    cbn [table]. rewrite Hold. unfold default, id.
    destruct (apply_set _ _ old) as [item'|] eqn:Hset; [|left; reflexivity].
    right. right. left. by exists item_id, d, old, item'.
  - unfold handle_delete_item.
    destruct (String.eqb item_id ""); [left; reflexivity|].
    unfold get_item, delete_item, ddb_request. run_monad.
    destruct (ddb_fault e (GetItem item_id)) as [err|].
    { left. destruct (is_ClientError err); reflexivity. }
    cbn [table].
    destruct (table w !! item_id) as [old|] eqn:Hold; [|left; reflexivity].
    destruct (ddb_fault e (DeleteItem item_id)) as [err|].
    { left. destruct (is_ClientError err); reflexivity. }
    right. right. right. by exists item_id.
Qed.

(** Every invocation keeps each item under its own identifier. *)
Lemma serve_table_ok (e : env) (r : request) (w : world) :
  table_ok (table w) -> table_ok (table (serve e r w).2).
Proof.
  intros Hok.
  destruct (serve_table e r w)
    as [->|[(d & k & _ & Hkey & ->)
           |[(item_id & d & old & item' & _ & Hold & Hset & ->)
            |(item_id & _ & ->)]]].
  - exact Hok.
  - by apply map_Forall_insert_2.
  - apply map_Forall_insert_2; [|exact Hok].
    destruct (update_request_apply (time_time e) d old)
      as (item'' & Hset' & Hlook).
    rewrite Hset in Hset'. injection Hset' as <-.
    pose proof (Hok _ _ Hold) as Hkey. apply key_of_Some in Hkey as [Hid Hne].
    apply key_of_Some. split; [|exact Hne].
    rewrite Hlook. by rewrite bool_decide_eq_true_2 by key_list.
  - by apply map_Forall_delete.
Qed.

Lemma run_table_ok (steps : list (env * request)) (w : world) :
  table_ok (table w) -> table_ok (table (run steps w)).
Proof.
  revert w. induction steps as [|[e r] steps IH]; intros w Hok; [exact Hok|].
  cbn [run]. apply IH. by apply serve_table_ok.
Qed.

Lemma stamped_later (t t' : Z) (item : gmap string value) :
  (t <= t')%Z -> stamped t item -> stamped t' item.
Proof.
  intros Ht (c & u & Hc & Hu & Hcu). exists c, u.
  split; [exact Hc|]. split; [exact Hu|]. lia.
Qed.

Lemma lacks_None (d : gmap string value) (key : string) :
  lacks d key = true -> d !! key = None.
Proof. unfold lacks. by destruct (d !! key). Qed.

(** One plain invocation at a reading not before [t] keeps every item
    stamped. *)
Lemma serve_stamped (t : Z) (e : env) (r : request) (w : world) :
  plain_request r = true ->
  (t <= time_time e)%Z ->
  map_Forall (fun _ item => stamped t item) (table w) ->
  map_Forall (fun _ item => stamped (time_time e) item) (table (serve e r w).2).
Proof.
  intros Hplain Ht Hinv.
  assert (map_Forall (fun _ item => stamped (time_time e) item) (table w))
    as Hinv'.
  { intros k item Hitem. eapply stamped_later; [exact Ht|]. by eapply Hinv. }
  destruct (serve_table e r w)
    as [->|[(d & k & -> & Hkey & ->)
           |[(item_id & d & old & item' & -> & Hold & Hset & ->)
            |(item_id & _ & ->)]]].
  - exact Hinv'.
  - apply map_Forall_insert_2; [|exact Hinv'].
    cbn [plain_request] in Hplain. apply andb_prop in Hplain as [Hc Hu].
    apply lacks_None in Hc, Hu.
    exists (time_time e), (time_time e). unfold created_item.
    rewrite !new_item_lookup by discriminate. rewrite Hc, Hu.
    split; [reflexivity|]. split; [reflexivity|]. lia.
  - apply map_Forall_insert_2; [|exact Hinv'].
    cbn [plain_request] in Hplain. apply andb_prop in Hplain as [Hu1 Hu2].
    apply lacks_None in Hu1, Hu2.
    destruct (update_request_apply (time_time e) d old)
      as (item'' & Hset' & Hlook).
    rewrite Hset in Hset'. injection Hset' as <-.
    destruct (Hinv _ _ Hold) as (c & u & Hc & Hu & Hcu).
    exists c, (time_time e). split; [|split; [|lia]].
    + rewrite Hlook. by rewrite bool_decide_eq_true_2 by key_list.
    + rewrite Hlook, Hu1, Hu2. by rewrite bool_decide_eq_false_2 by key_list.
  - by apply map_Forall_delete.
Qed.

Lemma stamped_ordered (t : Z) (item : gmap string value) :
  stamped t item -> timestamps_ordered item = true.
Proof.
  intros (c & u & Hc & Hu & Hcu). unfold timestamps_ordered.
  rewrite Hc, Hu. apply Z.leb_le. lia.
Qed.

(** On every run whose clock never goes back and whose requests are
    plain, every item of the table has [createdAt <= updatedAt] after
    every invocation. *)
Theorem plain_runs_keep_timestamps_ordered (steps : list (env * request))
    (t : Z) (w : world) :
  map_Forall (fun _ item => stamped t item) (table w) ->
  clock_from t steps = true ->
  forallb (fun step => plain_request step.2) steps = true ->
  ∀ k item, table (run steps w) !! k = Some item ->
            timestamps_ordered item = true.
Proof.
  revert t w. induction steps as [|[e r] steps IH]; intros t w Hinv Hclock Hplain.
  - intros k item Hitem. eapply stamped_ordered. by eapply Hinv.
  - cbn [clock_from] in Hclock. apply andb_prop in Hclock as [Ht Hclock].
    cbn [forallb snd] in Hplain. apply andb_prop in Hplain as [Hr Hplain].
    apply Z.leb_le in Ht. cbn [run].
    apply (IH (time_time e)); [|exact Hclock|exact Hplain].
    by apply (serve_stamped t).
Qed.

(** C4 at a create whose body carries [updatedAt]: the item is stored
    with the caller's [updatedAt], 0, below the [createdAt] that Create
    set from the clock. *)
Lemma create_with_updatedAt_unordered :
  let stored := table (run unordered_run empty_world) !! sample_id in
  stored ≫= (.!! "createdAt") = Some (VInt 1700000000)
  ∧ stored ≫= (.!! "updatedAt") = Some (VInt 0)
  ∧ timestamps_ordered <$> stored = Some false.
Proof. cbv zeta. repeat split; reflexivity. Qed.

(** ** Create, then Get *)

(** Away from the reserved keys the round trip holds: for a body with
    [name] and none of [itemId], [createdAt], [updatedAt], on a table that
    answers, Create returns a non-empty identifier and Get with it returns
    the item with [createdAt] equal to [updatedAt] and the name
    submitted. *)
Lemma create_then_get_plain (e e' : env) (d : gmap string value)
    (name : value) (rid rid' : string) (w : world) :
  d !! "name" = Some name ->
  d !! "itemId" = None -> d !! "createdAt" = None -> d !! "updatedAt" = None ->
  fault_free e -> fault_free e' ->
  (handle_create_item e (VDict d) rid w).1
    = Ok (message_response 201 (str_uuid (uuid4 e)) "Item created successfully")
  ∧ str_uuid (uuid4 e) ≠ ""
  ∧ ∃ item : gmap string value,
      (handle_get_item e' (str_uuid (uuid4 e)) rid'
         (handle_create_item e (VDict d) rid w).2).1
        = Ok (Response 200 json_headers (VDict item))
      ∧ item !! "createdAt" = Some (VInt (time_time e))
      ∧ item !! "updatedAt" = Some (VInt (time_time e))
      ∧ item !! "name" = Some name.
Proof.
  intros Hname Hid Hc Hu Hf Hf'.
  rewrite (handle_create_item_run e d name (str_uuid (uuid4 e)));
    [|exact Hname|apply Hf|by apply created_item_key_plain].
  split; [reflexivity|]. split; [apply str_uuid_nonempty|].
  exists (created_item e d).
  rewrite handle_get_item_run; [|apply str_uuid_nonempty|apply Hf'].
  cbn [snd table]. rewrite lookup_insert_eq.
  split; [reflexivity|]. unfold created_item. rewrite Hname.
  rewrite !new_item_lookup by discriminate. rewrite Hc, Hu.
  split; [reflexivity|]. split; [reflexivity|]. apply new_item_name.
Qed.

(** The placeholder of a body key [updated_at] is [:updated_at], the one
    that holds the timestamp: an update with such a body stores the
    caller's value as [updatedAt]. *)
Lemma update_with_updated_at_key :
  let updated :=
    handle_update_item (sample_env sample_uuid 200) "item-1"
      (VDict body_with_updated_at) "req-1" world_with_widget in
  updated.1 = Ok (message_response 200 "item-1" "Item updated successfully")
  ∧ table updated.2 !! "item-1" ≫= (.!! "updatedAt") = Some (VInt 0)
  ∧ table updated.2 !! "item-1" ≫= (.!! "createdAt") = Some (VInt 100).
Proof. cbv zeta. repeat split; reflexivity. Qed.

(** * Further properties *)

(** ** The dispatcher as a wrapper around the routed operation *)

Lemma handler_dispatch (json_loads : string -> loaded) (e : env)
    (ev : event) (ctx : context) :
  handler json_loads e ev ctx
  = (body ← of_result (parse_body json_loads (event_body ev));
     log INFO "Incoming request";;
     try_except
       (response ← dispatch e ev (route ev body);
        log INFO "Request processed successfully";;
        try_except
          (publish_custom_metrics e (function_name ctx)
             "SuccessfulInvocations" (VInt 1))
          any_exception (fun _ => mret tt);;
        mret response)
       any_exception
       (fun _ =>
          log ERROR "Error processing request";;
          try_except
            (publish_custom_metrics e (function_name ctx)
               "InvocationErrors" (VInt 1))
            any_exception (fun _ => mret tt);;
          mret (error_response 500 "Internal server error"))).
Proof.
  unfold handler, route, dispatch.
  destruct (String.eqb (httpMethod ev) "POST" && endswith (path ev) "/items");
    [reflexivity|].
  destruct (String.eqb (httpMethod ev) "GET" && contains "/items/" (path ev));
    [reflexivity|].
  destruct (String.eqb (httpMethod ev) "PUT" && contains "/items/" (path ev));
    [reflexivity|].
  destruct (String.eqb (httpMethod ev) "DELETE"
            && contains "/items/" (path ev)); reflexivity.
Qed.

(** ** Every path of the four operations *)

Ltac unfold_world := unfold logged, called, stored, log, record_call, set_table.

Lemma handle_get_item_cases (e : env) (item_id rid : string) (w : world) :
  handle_get_item e item_id rid w
  = if String.eqb item_id "" then
      (Ok (error_response 400 "Item ID is required"),
       logged WARNING "Item ID is required" w)
    else
      let w1 := called (GetItem item_id) w in
      match ddb_fault e (GetItem item_id) with
      | Some err =>
          if is_ClientError err then
            (Ok (error_response 500 "Failed to retrieve item"),
             logged ERROR "Failed to retrieve item from DynamoDB" w1)
          else (Raise err, w1)
      | None =>
          match table w !! item_id with
          | Some item =>
              (Ok (Response 200 json_headers (VDict item)),
               logged INFO "Item retrieved successfully" w1)
          | None =>
              (Ok (error_response 404 "Item not found"),
               logged INFO "Item not found" w1)
          end
      end.
Proof.
  unfold handle_get_item. destruct (String.eqb item_id ""); [reflexivity|].
  unfold get_item, ddb_request. run_monad. unfold_world.
  destruct (ddb_fault e (GetItem item_id)) as [err|].
  - destruct (is_ClientError err); reflexivity.
  - cbn [table fst snd]. destruct (table w !! item_id); reflexivity.
Qed.

Lemma handle_create_item_cases (e : env) (body : value) (rid : string)
    (w : world) :
  handle_create_item e body rid w
  = match object_body body with
    | None =>
        (Ok (error_response 400 "Invalid input: body must be a JSON object"),
         logged WARNING "Invalid input: body must be a JSON object" w)
    | Some d =>
        match d !! "name" with
        | None =>
            (Ok (error_response 400 "Missing required field: name"),
             logged WARNING "Missing required field: name" w)
        | Some _ =>
            let item := created_item e d in
            let w1 := called (PutItem item) w in
            match ddb_fault e (PutItem item) with
            | Some err =>
                if is_ClientError err then
                  (Ok (error_response 500 "Failed to create item"),
                   logged ERROR "Failed to create item in DynamoDB" w1)
                else (Raise err, w1)
            | None =>
                match key_of item with
                | None =>
                    (Ok (error_response 500 "Failed to create item"),
                     logged ERROR "Failed to create item in DynamoDB" w1)
                | Some k =>
                    (Ok (message_response 201 (str_uuid (uuid4 e))
                           "Item created successfully"),
                     logged INFO "Item created successfully"
                       (stored (<[k := item]> (table w)) w1))
                end
            end
        end
    end.
Proof.
  unfold handle_create_item.
  destruct (object_body body) as [d|]; [|reflexivity].
  unfold required_fields, first_missing, subscript, created_item.
  destruct (d !! "name") as [name|]; [|reflexivity].
  change (default VNone (Some name)) with name.
  unfold put_item, ddb_request. run_monad. unfold_world.
  destruct (ddb_fault e (PutItem _)) as [err|].
  - destruct (is_ClientError err); reflexivity.
  - destruct (key_of _); reflexivity.
Qed.

Lemma handle_update_item_cases (e : env) (item_id : string) (body : value)
    (rid : string) (w : world) :
  handle_update_item e item_id body rid w
  = if String.eqb item_id "" then
      (Ok (error_response 400 "Item ID is required for update"),
       logged WARNING "Item ID is required for update" w)
    else
      match object_body body with
      | None =>
          (Ok (error_response 400 "Invalid input: body must be a JSON object"),
           logged WARNING "Invalid input: body must be a JSON object" w)
      | Some d =>
          let w1 := called (GetItem item_id) w in
          match ddb_fault e (GetItem item_id) with
          | Some err =>
              if is_ClientError err then
                (Ok (error_response 500 "Failed to update item"),
                 logged ERROR "Failed to update item in DynamoDB" w1)
              else (Raise err, w1)
          | None =>
              match table w !! item_id with
              | None =>
                  (Ok (error_response 404 "Item not found"),
                   logged INFO "Item not found for update" w1)
              | Some old =>
                  let request := update_request (time_time e) d in
                  let w2 := called (UpdateItem item_id request.1 request.2) w1 in
                  match ddb_fault e (UpdateItem item_id request.1 request.2) with
                  | Some err =>
                      if is_ClientError err then
                        (Ok (error_response 500 "Failed to update item"),
                         logged ERROR "Failed to update item in DynamoDB" w2)
                      else (Raise err, w2)
                  | None =>
                      match apply_set request.1 request.2 old with
                      | None =>
                          (Ok (error_response 500 "Failed to update item"),
                           logged ERROR "Failed to update item in DynamoDB" w2)
                      | Some item' =>
                          (Ok (message_response 200 item_id
                                 "Item updated successfully"),
                           logged INFO "Item updated successfully"
                             (stored (<[item_id := item']> (table w)) w2))
                      end
                  end
              end
          end
      end.
Proof.
  unfold handle_update_item. destruct (String.eqb item_id ""); [reflexivity|].
  destruct (object_body body) as [d|]; [|reflexivity].
  unfold get_item, update_item, ddb_request. run_monad. unfold_world.
  destruct (ddb_fault e (GetItem item_id)) as [err|].
  { destruct (is_ClientError err); reflexivity. }
  cbn [table fst snd].
  destruct (table w !! item_id) as [old|] eqn:Hold; [|reflexivity].
  destruct (ddb_fault e (UpdateItem _ _ _)) as [err|].
  { destruct (is_ClientError err); reflexivity. }
  cbn [table fst snd]. rewrite Hold. unfold default, id.
  destruct (apply_set _ _ old); reflexivity.
Qed.

Lemma handle_delete_item_cases (e : env) (item_id rid : string) (w : world) :
  handle_delete_item e item_id rid w
  = if String.eqb item_id "" then
      (Ok (error_response 400 "Item ID is required for deletion"),
       logged WARNING "Item ID is required for deletion" w)
    else
      let w1 := called (GetItem item_id) w in
      match ddb_fault e (GetItem item_id) with
      | Some err =>
          if is_ClientError err then
            (Ok (error_response 500 "Failed to delete item"),
             logged ERROR "Failed to delete item from DynamoDB" w1)
          else (Raise err, w1)
      | None =>
          match table w !! item_id with
          | None =>
              (Ok (error_response 404 "Item not found"),
               logged INFO "Item not found for deletion" w1)
          | Some _ =>
              let w2 := called (DeleteItem item_id) w1 in
              match ddb_fault e (DeleteItem item_id) with
              | Some err =>
                  if is_ClientError err then
                    (Ok (error_response 500 "Failed to delete item"),
                     logged ERROR "Failed to delete item from DynamoDB" w2)
                  else (Raise err, w2)
              | None =>
                  (Ok (message_response 200 item_id "Item deleted successfully"),
                   logged INFO "Item deleted successfully"
                     (stored (delete item_id (table w)) w2))
              end
          end
      end.
Proof.
  unfold handle_delete_item. destruct (String.eqb item_id ""); [reflexivity|].
  unfold get_item, delete_item, ddb_request. run_monad. unfold_world.
  destruct (ddb_fault e (GetItem item_id)) as [err|].
  { destruct (is_ClientError err); reflexivity. }
  cbn [table fst snd].
  destruct (table w !! item_id) as [old|]; [|reflexivity].
  destruct (ddb_fault e (DeleteItem item_id)) as [err|]; [|reflexivity].
  destruct (is_ClientError err); reflexivity.
Qed.

(** Case analysis on the innermost scrutinee first. *)
Ltac inner_case :=
  match goal with
  | |- context [match ?x with _ => _ end] =>
      lazymatch x with
      | context [match _ with _ => _ end] => fail
      | _ => destruct x eqn:?
      end
  end.

Ltac by_cases :=
  rewrite ?handle_create_item_cases, ?handle_get_item_cases,
    ?handle_update_item_cases, ?handle_delete_item_cases;
  cbv zeta; cbn [fst snd]; repeat (inner_case; cbn [fst snd]); unfold_world;
  cbn [fst snd table ddb_calls metrics logs].

(** ** CloudWatch and the dispatcher *)

Lemma publish_custom_metrics_run (e : env) (fn name : string) (v : value)
    (w : world) :
  publish_custom_metrics e fn name v w
  = (Ok tt,
     published e
       (Metric name v
          (if String.eqb name "ProcessingTime" then "Milliseconds" else "Count")
          fn) w).
Proof.
  unfold publish_custom_metrics, put_metric_data, published, try_except.
  destruct (cloudwatch_fault e); reflexivity.
Qed.

Lemma handler_run (json_loads : string -> loaded) (e : env) (ev : event)
    (ctx : context) (w : world) (body : value) :
  parse_body json_loads (event_body ev) = Ok body ->
  handler json_loads e ev ctx w
  = match dispatch e ev (route ev body)
            (logged INFO "Incoming request" w) with
    | (Ok resp, w1) =>
        (Ok resp,
         published e (counter ctx "SuccessfulInvocations")
           (logged INFO "Request processed successfully" w1))
    | (Raise _, w1) =>
        (Ok (error_response 500 "Internal server error"),
         published e (counter ctx "InvocationErrors")
           (logged ERROR "Error processing request" w1))
    end.
Proof.
  intros Hbody. rewrite handler_dispatch.
  unfold mbind, M_mbind, M_bind at 1. unfold of_result. rewrite Hbody.
  unfold M_bind at 1. unfold log at 1.
  unfold try_except at 1. unfold M_bind at 1. unfold logged, log at 1.
  cbn [snd].
  destruct (dispatch e ev (route ev body) _) as [[resp|err] w1].
  - unfold M_bind at 1. unfold log at 1. unfold M_bind at 1.
    unfold try_except at 1. rewrite publish_custom_metrics_run. reflexivity.
  - cbn [any_exception]. unfold M_bind at 1. unfold log at 1.
    unfold M_bind at 1. unfold try_except at 1.
    rewrite publish_custom_metrics_run. reflexivity.
Qed.

(** What an operation can answer, and which exceptions escape it. *)
Lemma serve_result (e : env) (r : request) (w : world) :
  match (serve e r w).1 with
  | Ok resp => headers resp = json_headers ∧ statusCode resp ∈ status_codes
  | Raise err => is_ClientError err = false
  end.
Proof.
  destruct r; cbn [serve]; by_cases;
    first [ assumption
          | split; [reflexivity|unfold status_codes; key_list] ].
Qed.

Lemma dispatch_result (e : env) (ev : event) (target : option request)
    (w : world) :
  match (dispatch e ev target w).1 with
  | Ok resp => headers resp = json_headers ∧ statusCode resp ∈ status_codes
  | Raise err => is_ClientError err = false
  end.
Proof.
  destruct target as [r|]; cbn [dispatch]; [apply serve_result|].
  split; [reflexivity|unfold status_codes; key_list].
Qed.

(** The dispatcher is a failure boundary for everything but the parse of
    the body. When [json.loads] raises nothing on the body except
    [JSONDecodeError], [handler] returns a response, whatever the
    environment and the state of the table, with the two fixed headers and
    one of the status codes 200, 201, 400, 404, 500. When [json.loads]
    raises another exception on the body, [handler] raises that
    exception: the parse comes before the [try], nothing is logged,
    called or published, and no response is returned. *)
Theorem handler_responds_unless_json_loads_raises
    (json_loads : string -> loaded) (e : env) (ev : event) (ctx : context)
    (w : world) :
  (body_readable json_loads ev = true ->
   ∃ resp,
     (handler json_loads e ev ctx w).1 = Ok resp
     ∧ headers resp = json_headers
     ∧ statusCode resp ∈ status_codes)
  ∧ (∀ s err,
       event_body ev = VStr s -> s ≠ "" -> json_loads s = LoadError err ->
       handler json_loads e ev ctx w = (Raise err, w)).
Proof.
  split.
  - intros Hbody.
    destruct (parse_body_readable json_loads ev Hbody) as [body Hparse].
    rewrite (handler_run json_loads e ev ctx w body Hparse).
    pose proof (dispatch_result e ev (route ev body)
                  (logged INFO "Incoming request" w)) as Hres.
    destruct (dispatch e ev (route ev body) _) as [[resp|err] w1];
      cbn [fst] in *.
    + exists resp. done.
    + eexists. split; [reflexivity|].
      split; [reflexivity|unfold status_codes; key_list].
  - intros s err Hev Hs Hload. apply handler_raises.
    rewrite Hev. unfold parse_body. cbn [truthy is_str].
    rewrite eqb_nonempty by done. cbn [negb andb]. by rewrite Hload.
Qed.

Lemma serve_with_cloudwatch (fault : option exn) (e : env) (r : request)
    (w : world) :
  serve (with_cloudwatch fault e) r w = serve e r w.
Proof.
  destruct r; cbn [serve];
    rewrite ?handle_create_item_cases, ?handle_get_item_cases,
      ?handle_update_item_cases, ?handle_delete_item_cases; reflexivity.
Qed.

(** Metrics are fire-and-forget: the response of [handler], the content
    of the table and the calls made on the table are the same whether
    CloudWatch accepts the metric or fails in any way. *)
Theorem cloudwatch_never_changes_the_outcome
    (json_loads : string -> loaded) (fault : option exn) (e : env)
    (ev : event) (ctx : context) (w : world) :
  (handler json_loads (with_cloudwatch fault e) ev ctx w).1
    = (handler json_loads e ev ctx w).1
  ∧ table (handler json_loads (with_cloudwatch fault e) ev ctx w).2
    = table (handler json_loads e ev ctx w).2
  ∧ ddb_calls (handler json_loads (with_cloudwatch fault e) ev ctx w).2
    = ddb_calls (handler json_loads e ev ctx w).2.
Proof.
  destruct (parse_body json_loads (event_body ev)) as [body|err] eqn:Hparse;
    [|by rewrite !(handler_raises json_loads _ ev ctx w err Hparse)].
  rewrite !(handler_run json_loads _ ev ctx w body Hparse).
  assert (dispatch (with_cloudwatch fault e) ev (route ev body)
            (logged INFO "Incoming request" w)
          = dispatch e ev (route ev body)
              (logged INFO "Incoming request" w)) as ->.
  { destruct (route ev body); cbn [dispatch];
      [apply serve_with_cloudwatch|reflexivity]. }
  destruct (dispatch e ev (route ev body) _) as [[resp|err] w1];
    unfold published; cbn [cloudwatch_fault with_cloudwatch];
    destruct fault, (cloudwatch_fault e); repeat split.
Qed.

Lemma serve_metrics (e : env) (r : request) (w : world) :
  metrics (serve e r w).2 = metrics w.
Proof. destruct r; cbn [serve]; by_cases; reflexivity. Qed.

(** One invocation that gets past the parse of the body publishes one
    datum when CloudWatch answers, and none when it fails: the counter
    [SuccessfulInvocations], or the counter [InvocationErrors] together
    with the response 500 "Internal server error", with value 1, unit
    Count and the function name as dimension. No [ProcessingTime] datum is
    ever published. *)
Theorem handler_publishes_one_counter (json_loads : string -> loaded)
    (e : env) (ev : event) (ctx : context) (w : world) :
  body_readable json_loads ev = true ->
  ∃ name,
    (name = "SuccessfulInvocations"
     ∨ (name = "InvocationErrors"
        ∧ (handler json_loads e ev ctx w).1
          = Ok (error_response 500 "Internal server error")))
    ∧ metrics (handler json_loads e ev ctx w).2
      = metrics w ++ match cloudwatch_fault e with
                     | None => [Metric name (VInt 1) "Count" (function_name ctx)]
                     | Some _ => []
                     end.
Proof.
  intros Hbody.
  destruct (parse_body_readable json_loads ev Hbody) as [body Hparse].
  rewrite (handler_run json_loads e ev ctx w body Hparse).
  assert (metrics (dispatch e ev (route ev body)
                     (logged INFO "Incoming request" w)).2 = metrics w) as Hm.
  { destruct (route ev body); cbn [dispatch];
      [by rewrite serve_metrics|reflexivity]. }
  destruct (dispatch e ev (route ev body) _) as [[resp|err] w1];
    cbn [snd] in Hm.
  - exists "SuccessfulInvocations". split; [by left|].
    unfold published, counter. destruct (cloudwatch_fault e);
      unfold_world; cbn [snd metrics]; rewrite Hm;
      [by rewrite app_nil_r|reflexivity].
  - exists "InvocationErrors". split; [by right|].
    unfold published, counter. destruct (cloudwatch_fault e);
      unfold_world; cbn [snd metrics]; rewrite Hm;
      [by rewrite app_nil_r|reflexivity].
Qed.

(** ** What one operation does to the table *)

(** Each operation touches at most the item it addresses: for Get,
    Update and Delete every item under another identifier than the
    requested one is left as it was, and for Create every item under
    another key than that of the new item, whatever the body and whether
    or not the table calls fail. *)
Theorem other_items_untouched (e : env) (r : request) (w : world) (k : string) :
  addressed e r ≠ Some k ->
  table (serve e r w).2 !! k = table w !! k.
Proof.
  destruct r; cbn [serve addressed]; by_cases; intros Hk;
    try reflexivity.
  - apply lookup_insert_ne. congruence.
  - apply lookup_insert_ne. congruence.
  - apply lookup_delete_ne. congruence.
Qed.

(** The table changes only when the operation reports success: unless
    the answer is 200 or 201, the content of the table after the
    operation is the content before, also when an exception escapes. *)
Theorem table_changes_only_on_success (e : env) (r : request) (w : world) :
  (∃ resp, (serve e r w).1 = Ok resp
           ∧ (statusCode resp = 200 ∨ statusCode resp = 201))
  ∨ table (serve e r w).2 = table w.
Proof.
  destruct r; cbn [serve]; by_cases;
    first [ right; reflexivity
          | left; eexists; split; [reflexivity|cbn; auto] ].
Qed.

(** Validation failures never reach the table: an operation made no call
    on the table exactly when it answered 400. *)
Theorem no_call_iff_400 (e : env) (r : request) (w : world) :
  ddb_calls (serve e r w).2 = ddb_calls w
  <-> ∃ resp, (serve e r w).1 = Ok resp ∧ statusCode resp = 400.
Proof.
  assert (∀ (l : list ddb_call) x, l ++ x = l -> x = []) as Hnil.
  { intros l x H. apply (app_inv_head l). by rewrite app_nil_r. }
  destruct r; cbn [serve]; by_cases; split;
    try (intros _; eexists; split; reflexivity);
    try reflexivity;
    try (intros (resp & [= <-] & [=]));
    try (intros (resp & [=] & _));
    try (rewrite <- ?app_assoc; intros H; apply Hnil in H; discriminate H).
Qed.

(** An operation makes at most two calls on the table, and it writes
    blindly only in Create: a Get makes one lookup; an Update or a Delete
    first looks the identifier up and issues the [UpdateItem] or
    [DeleteItem] only when the lookup succeeded and found an item there. *)
Theorem calls_of_an_operation (e : env) (r : request) (w : world) :
  ∃ new,
    ddb_calls (serve e r w).2 = ddb_calls w ++ new
    ∧ match r with
      | Create _ => new = [] ∨ ∃ item, new = [PutItem item]
      | Get item_id => new = [] ∨ new = [GetItem item_id]
      | Update item_id _ =>
          new = [] ∨ new = [GetItem item_id]
          ∨ ∃ expression values,
              new = [GetItem item_id; UpdateItem item_id expression values]
              ∧ ddb_fault e (GetItem item_id) = None
              ∧ is_Some (table w !! item_id)
      | Delete item_id =>
          new = [] ∨ new = [GetItem item_id]
          ∨ (new = [GetItem item_id; DeleteItem item_id]
             ∧ ddb_fault e (GetItem item_id) = None
             ∧ is_Some (table w !! item_id))
      end.
Proof.
  destruct r; cbn [serve]; by_cases; rewrite <- ?app_assoc; cbn [app];
    first [ exists []; split; [by rewrite app_nil_r|by left]
          | eexists [_]; split; [reflexivity|]; eauto
          | eexists [_; _]; split; [reflexivity|]; right; right; eauto 10 ].
Qed.

(** Which identifiers exist: a Get or an Update never changes the set of
    stored identifiers, whatever the body and the environment; a Delete
    removes at most the requested identifier; a Create adds at most the
    key of its item. *)
Theorem stored_identifiers (e : env) (r : request) (w : world) :
  match r with
  | Get _ | Update _ _ => dom (table (serve e r w).2) = dom (table w)
  | Delete item_id =>
      dom (table (serve e r w).2) = dom (table w)
      ∨ dom (table (serve e r w).2) = dom (table w) ∖ {[ item_id ]}
  | Create _ =>
      dom (table (serve e r w).2) = dom (table w)
      ∨ ∃ k, addressed e r = Some k
             ∧ dom (table (serve e r w).2) = {[ k ]} ∪ dom (table w)
  end.
Proof.
  destruct r; cbn [serve addressed]; by_cases;
    first [ reflexivity
          | left; reflexivity
          | right; apply dom_delete_L
          | right; eexists; split; [reflexivity|apply dom_insert_L]
          | idtac ].
  rewrite dom_insert_L. apply subseteq_union_1_L.
  apply singleton_subseteq_l, elem_of_dom. eauto.
Qed.

(** Whatever the body of an Update holds, and whether or not the calls
    fail, every stored item keeps its [itemId] and its [createdAt]. *)
Theorem update_never_touches_itemId_createdAt (e : env) (item_id : string)
    (body : value) (rid : string) (w : world) (k : string)
    (item : gmap string value) :
  table w !! k = Some item ->
  ∃ item',
    table (handle_update_item e item_id body rid w).2 !! k = Some item'
    ∧ item' !! "itemId" = item !! "itemId"
    ∧ item' !! "createdAt" = item !! "createdAt".
Proof.
  intros Hitem.
  pose proof (serve_table e (Update item_id body) w) as Hcases.
  cbn [serve] in Hcases.
  replace (handle_update_item e item_id body rid w)
    with (handle_update_item e item_id body "request" w) by reflexivity.
  destruct Hcases
    as [->|[(d & k' & [=] & _)
           |[(id' & d & old & item' & [= <- ->] & Hold & Hset & ->)
            |(id' & [=] & _)]]].
  - by exists item.
  - destruct (decide (item_id = k)) as [->|Hne].
    + rewrite lookup_insert_eq. exists item'. split; [reflexivity|].
      rewrite Hold in Hitem. injection Hitem as ->.
      destruct (update_request_apply (time_time e) d item)
        as (item'' & Hset' & Hlook).
      rewrite Hset in Hset'. injection Hset' as <-.
      rewrite !Hlook. by rewrite !bool_decide_eq_true_2 by key_list.
    + rewrite lookup_insert_ne by done. by exists item.
Qed.

(** ** Update and Create, field by field *)

(** The placeholder of a body key [updated_at] is [:updated_at], the one
    bound to the timestamp: for an update of an existing item whose body
    has the key [updated_at] and not [updatedAt], on a table that
    answers, the item is stored with the body's value both as
    [updated_at] and as [updatedAt], in place of the timestamp. *)
Theorem updated_at_overrides_the_timestamp (e : env) (item_id rid : string)
    (d old : gmap string value) (v : value) (w : world) :
  item_id ≠ "" ->
  table w !! item_id = Some old ->
  d !! "updated_at" = Some v ->
  d !! "updatedAt" = None ->
  fault_free e ->
  (handle_update_item e item_id (VDict d) rid w).1
    = Ok (message_response 200 item_id "Item updated successfully")
  ∧ ∃ item',
      table (handle_update_item e item_id (VDict d) rid w).2 !! item_id
        = Some item'
      ∧ item' !! "updatedAt" = Some v
      ∧ item' !! "updated_at" = Some v.
Proof.
  intros Hid Hold Hv Hu Hf.
  destruct (update_request_apply (time_time e) d old) as (item' & Hset & Hlook).
  rewrite (handle_update_item_found e item_id rid d old item');
    [|exact Hid|apply (lookup_nonempty _ "updated_at"); eauto
     |exact Hf|exact Hold|exact Hset].
  split; [reflexivity|]. exists item'. cbn [snd table].
  split; [apply lookup_insert_eq|].
  rewrite !Hlook, Hu, Hv.
  rewrite !bool_decide_eq_false_2 by key_list.
  by rewrite bool_decide_eq_true_2.
Qed.

Lemma created_item_field (e : env) (d : gmap string value) (f : string)
    (v : value) :
  d !! f = Some v -> created_item e d !! f = Some v.
Proof.
  intros Hv. unfold created_item.
  destruct (decide (f = "name")) as [->|Hn].
  { rewrite new_item_name, Hv. reflexivity. }
  destruct (decide (f = "description")) as [->|Hd].
  { rewrite new_item_description, Hv. reflexivity. }
  by rewrite new_item_lookup, Hv.
Qed.

Lemma created_item_fields (e : env) (d : gmap string value) (f : string) :
  is_Some (created_item e d !! f)
  <-> is_Some (d !! f) ∨ f ∈ standard_fields.
Proof.
  unfold created_item, standard_fields.
  destruct (decide (f = "name")) as [->|Hn].
  { rewrite new_item_name. split; [intros _; right; key_list|eauto]. }
  destruct (decide (f = "description")) as [->|Hd].
  { rewrite new_item_description. split; [intros _; right; key_list|eauto]. }
  rewrite new_item_lookup by done.
  destruct (d !! f) as [v|]; [split; eauto|].
  destruct (decide (f = "itemId")) as [->|H1].
  { split; [intros _; right; key_list|intros _; by eexists]. }
  destruct (decide (f = "createdAt")) as [->|H2].
  { split; [intros _; right; key_list|intros _; by eexists]. }
  destruct (decide (f = "updatedAt")) as [->|H3].
  { split; [intros _; right; key_list|intros _; by eexists]. }
  rewrite !lookup_insert_ne by done. rewrite lookup_singleton_ne by done.
  split; [intros [? [=]]|].
  intros [[? [=]]|Hin]. exfalso.
  repeat (apply elem_of_cons in Hin as [->|Hin]; [done|]).
  by apply elem_of_nil in Hin.
Qed.

(** A successful Create stores every field of the body with the body's
    value, the reserved ones included; the fields of the stored item are
    those of the body and the five that Create sets; a body without
    [description] gets the empty string. *)
Theorem create_stores_the_body (e : env) (d : gmap string value)
    (rid : string) (w : world) :
  is_Some (d !! "name") ->
  put_succeeds e (created_item e d) ->
  ∃ k item,
    key_of item = Some k
    ∧ table (handle_create_item e (VDict d) rid w).2 !! k = Some item
    ∧ (∀ f v, d !! f = Some v -> item !! f = Some v)
    ∧ (∀ f, is_Some (item !! f) <-> is_Some (d !! f) ∨ f ∈ standard_fields)
    ∧ (d !! "description" = None -> item !! "description" = Some (VStr "")).
Proof.
  intros [name Hname] [Hfault [k Hkey]].
  exists k, (created_item e d).
  rewrite (handle_create_item_run e d name k) by done.
  split; [exact Hkey|]. split; [apply lookup_insert_eq|].
  split; [apply created_item_field|]. split; [apply created_item_fields|].
  intros Hd. unfold created_item. by rewrite new_item_description, Hd.
Qed.

(** ** Identifiers *)

Lemma string_app_assoc (s t u : string) :
  ((s ++ t) ++ u = s ++ (t ++ u))%string.
Proof.
  induction s as [|c s IH]; [reflexivity|].
  change (String c ((s ++ t) ++ u) = String c (s ++ (t ++ u)))%string.
  by rewrite IH.
Qed.

Lemma string_app_length (s t : string) :
  String.length (s ++ t)%string = (String.length s + String.length t)%nat.
Proof.
  induction s as [|c s IH]; [reflexivity|].
  change (S (String.length (s ++ t)%string)
          = S (String.length s + String.length t)). by rewrite IH.
Qed.

(** Two concatenations with left parts of one length agree part by
    part. *)
Lemma string_app_inj (s1 s2 t1 t2 : string) :
  String.length s1 = String.length s2 ->
  (s1 ++ t1 = s2 ++ t2)%string -> s1 = s2 ∧ t1 = t2.
Proof.
  revert s2. induction s1 as [|c s1 IH]; intros [|c2 s2] Hlen H;
    try discriminate Hlen.
  - by split.
  - change (String c (s1 ++ t1) = String c2 (s2 ++ t2))%string in H.
    injection H as -> H. injection Hlen as Hlen.
    destruct (IH s2 Hlen H) as [-> ->]. by split.
Qed.

Lemma hex_digits_acc (n : nat) (v : N) (acc : string) :
  hex_digits n v acc = (hex_digits n v "" ++ acc)%string.
Proof.
  revert v acc. induction n as [|n IH]; intros v acc; [reflexivity|].
  cbn [hex_digits]. rewrite (IH _ (String _ acc)), (IH _ (String _ "")).
  by rewrite string_app_assoc.
Qed.

Lemma hex_digits_length (n : nat) (v : N) (acc : string) :
  String.length (hex_digits n v acc) = (n + String.length acc)%nat.
Proof.
  revert v acc. induction n as [|n IH]; intros v acc; [reflexivity|].
  cbn [hex_digits]. rewrite IH. cbn [String.length]. lia.
Qed.

Lemma hex_digit_cases (d : N) :
  hex_digit d ∈ ["0"; "1"; "2"; "3"; "4"; "5"; "6"; "7"; "8"; "9";
                 "a"; "b"; "c"; "d"; "e"; "f"]%char.
Proof.
  destruct d as [|p]; [key_list|].
  do 4 (try destruct p as [p|p|]); cbn [hex_digit]; key_list.
Qed.

Lemma hex_digit_inj (d1 d2 : N) :
  (d1 < 16)%N -> (d2 < 16)%N -> hex_digit d1 = hex_digit d2 -> d1 = d2.
Proof.
  intros H1 H2.
  destruct d1 as [|p1]; [|do 4 (try destruct p1 as [p1|p1|])];
    try (exfalso; lia);
    (destruct d2 as [|p2]; [|do 4 (try destruct p2 as [p2|p2|])]);
    try (exfalso; lia); cbn [hex_digit]; intros H;
    first [reflexivity | discriminate H].
Qed.

Lemma hex_digits_inj (n : nat) (v1 v2 : N) :
  hex_digits n v1 "" = hex_digits n v2 "" ->
  (v1 mod 16 ^ N.of_nat n = v2 mod 16 ^ N.of_nat n)%N.
Proof.
  revert v1 v2. induction n as [|n IH]; intros v1 v2 H.
  - cbn. by rewrite !N.mod_1_r.
  - cbn [hex_digits] in H.
    rewrite (hex_digits_acc n (v1 / 16)), (hex_digits_acc n (v2 / 16)) in H.
    apply string_app_inj in H as [Hhigh Hlow];
      [|by rewrite !hex_digits_length].
    injection Hlow as Hlow.
    apply hex_digit_inj in Hlow; [|by apply N.mod_lt..].
    apply IH in Hhigh.
    rewrite Nat2N.inj_succ, N.pow_succ_r'.
    rewrite !N.Div0.mod_mul_r. by rewrite Hhigh, Hlow.
Qed.

(** A string of 32 characters, character by character. *)
Ltac split_hex h Hlen :=
  do 32 (destruct h as [|? h]; [discriminate Hlen|]);
  destruct h; [clear Hlen|discriminate Hlen].

Lemma str_uuid_length (u : N) : String.length (str_uuid u) = 36%nat.
Proof.
  unfold str_uuid.
  pose proof (hex_digits_length 32 u "") as Hlen.
  generalize dependent (hex_digits 32 u ""). intros h Hlen.
  split_hex h Hlen. reflexivity.
Qed.

Lemma str_uuid_hex (u1 u2 : N) :
  str_uuid u1 = str_uuid u2 -> hex_digits 32 u1 "" = hex_digits 32 u2 "".
Proof.
  unfold str_uuid.
  pose proof (hex_digits_length 32 u1 "") as Hlen1.
  pose proof (hex_digits_length 32 u2 "") as Hlen2.
  generalize dependent (hex_digits 32 u1 ""). intros h1 Hlen1.
  generalize dependent (hex_digits 32 u2 ""). intros h2 Hlen2.
  split_hex h1 Hlen1. split_hex h2 Hlen2.
  cbv [substring String.append]. intros H. injection H. intros. by subst.
Qed.

Lemma str_uuid_eq (u1 u2 : N) :
  (u1 < 2 ^ 128)%N -> (u2 < 2 ^ 128)%N ->
  str_uuid u1 = str_uuid u2 -> u1 = u2.
Proof.
  intros H1 H2 H. apply str_uuid_hex, hex_digits_inj in H.
  change (16 ^ N.of_nat 32)%N with (2 ^ 128)%N in H.
  by rewrite !N.mod_small in H.
Qed.

(** [str(uuid)] determines the UUID: distinct 128-bit values have
    distinct texts, so distinct UUIDs give distinct identifiers. *)
Theorem distinct_uuids_distinct_ids (u1 u2 : N) :
  (u1 < 2 ^ 128)%N -> (u2 < 2 ^ 128)%N ->
  u1 ≠ u2 -> str_uuid u1 ≠ str_uuid u2.
Proof.
  intros H1 H2 Hne H. apply Hne.
  apply str_uuid_hex, hex_digits_inj in H.
  change (16 ^ N.of_nat 32)%N with (2 ^ 128)%N in H.
  by rewrite !N.mod_small in H.
Qed.

Lemma contains_slash_cons (c : ascii) (s : string) :
  contains "/" (String c s) = Ascii.eqb c "/" || contains "/" s.
Proof.
  cbn [contains String.prefix].
  destruct (ascii_dec "/" c) as [<-|Hne].
  - by destruct s.
  - rewrite (proj2 (Ascii.eqb_neq c "/")) by congruence. reflexivity.
Qed.

Lemma contains_slash_app (s t : string) :
  contains "/" (s ++ t)%string = contains "/" s || contains "/" t.
Proof.
  induction s as [|c s IH]; [by destruct t|].
  change (String c s ++ t)%string with (String c (s ++ t)%string).
  rewrite !contains_slash_cons, IH. by rewrite orb_assoc.
Qed.

Lemma contains_slash_substring (n m : nat) (s : string) :
  contains "/" s = false -> contains "/" (substring n m s) = false.
Proof.
  revert n m. induction s as [|c s IH]; intros n m Hs.
  - by destruct n, m.
  - rewrite contains_slash_cons in Hs. apply orb_false_elim in Hs as [Hc Hs].
    destruct n as [|n]; [destruct m as [|m]|]; cbn [substring].
    + reflexivity.
    + rewrite contains_slash_cons, Hc. by apply IH.
    + by apply IH.
Qed.

Lemma contains_slash_hex_digits (n : nat) (v : N) (acc : string) :
  contains "/" acc = false -> contains "/" (hex_digits n v acc) = false.
Proof.
  revert v acc. induction n as [|n IH]; intros v acc Hacc; [exact Hacc|].
  cbn [hex_digits]. apply IH. rewrite contains_slash_cons, Hacc.
  pose proof (hex_digit_cases (v mod 16)) as Hd.
  repeat (apply elem_of_cons in Hd as [->|Hd]; [reflexivity|]).
  by apply elem_of_nil in Hd.
Qed.

Lemma str_uuid_no_slash (u : N) : contains "/" (str_uuid u) = false.
Proof.
  unfold str_uuid.
  assert (contains "/" (hex_digits 32 u "") = false) as Hhex
    by (by apply contains_slash_hex_digits).
  rewrite !contains_slash_app, !contains_slash_substring by exact Hhex.
  reflexivity.
Qed.

(** The identifier of a new item has the canonical form of a UUID: 36
    characters with dashes at positions 8, 13, 18 and 23, and no slash
    anywhere, so that it is a single path segment. *)
Theorem str_uuid_format (u : N) :
  String.length (str_uuid u) = 36%nat
  ∧ String.get 8 (str_uuid u) = Some "-"%char
  ∧ String.get 13 (str_uuid u) = Some "-"%char
  ∧ String.get 18 (str_uuid u) = Some "-"%char
  ∧ String.get 23 (str_uuid u) = Some "-"%char
  ∧ contains "/" (str_uuid u) = false.
Proof.
  split; [apply str_uuid_length|].
  assert (String.get 8 (str_uuid u) = Some "-"%char
          ∧ String.get 13 (str_uuid u) = Some "-"%char
          ∧ String.get 18 (str_uuid u) = Some "-"%char
          ∧ String.get 23 (str_uuid u) = Some "-"%char) as (H8 & H13 & H18 & H23).
  { unfold str_uuid.
    pose proof (hex_digits_length 32 u "") as Hlen.
    generalize dependent (hex_digits 32 u ""). intros h Hlen.
    split_hex h Hlen. repeat split; reflexivity. }
  repeat (split; [assumption|]). apply str_uuid_no_slash.
Qed.

(** ** Paths and routes *)

Lemma endswith_app (p suffix : string) :
  endswith (p ++ suffix)%string suffix = true.
Proof.
  induction p as [|c p IH].
  - change ("" ++ suffix)%string with suffix.
    destruct suffix; cbn [endswith]; by rewrite String.eqb_refl.
  - change (String c p ++ suffix)%string with (String c (p ++ suffix)%string).
    cbn [endswith]. rewrite IH. by destruct (String.eqb _ _).
Qed.

Lemma prefix_app (sub q : string) : String.prefix sub (sub ++ q)%string = true.
Proof.
  induction sub as [|c sub IH]; [by destruct q|].
  change (String c sub ++ q)%string with (String c (sub ++ q)%string).
  cbn [String.prefix]. by destruct (ascii_dec c c).
Qed.

Lemma contains_app (sub p q : string) :
  contains sub (p ++ sub ++ q)%string = true.
Proof.
  induction p as [|c p IH].
  - change ("" ++ sub ++ q)%string with (sub ++ q)%string.
    destruct (sub ++ q)%string eqn:E; cbn [contains];
      rewrite <- E, prefix_app; reflexivity.
  - change (String c p ++ sub ++ q)%string
      with (String c (p ++ sub ++ q)%string).
    cbn [contains]. rewrite IH. by destruct (String.prefix _ _).
Qed.

Lemma last_segment_app (p s : string) :
  contains "/" s = false -> last_segment (p ++ "/" ++ s)%string = s.
Proof.
  intros Hs. induction p as [|c p IH].
  - change ("" ++ "/" ++ s)%string with (String "/" s).
    cbn [last_segment]. by rewrite Hs.
  - change (String c p ++ "/" ++ s)%string
      with (String c (p ++ "/" ++ s)%string).
    cbn [last_segment]. rewrite (contains_app "/" p s). exact IH.
Qed.

Lemma requested_id_from_path (ev : event) (p segment : string) :
  (∀ id, default ∅ (pathParameters ev) !! "id" = Some id ->
         id = "" ∨ id = segment) ->
  path ev = (p ++ "/" ++ segment)%string ->
  contains "/" segment = false ->
  requested_id ev = segment.
Proof.
  intros Hpp Hpath Hseg. unfold requested_id. rewrite Hpath.
  rewrite last_segment_app by exact Hseg.
  destruct (default ∅ (pathParameters ev) !! "id") as [id|]; [|reflexivity].
  destruct (Hpp id eq_refl) as [-> | ->]; [reflexivity|].
  by destruct (String.eqb segment "").
Qed.

(** How the identifier is found: for a path that ends in a slash
    followed by a slash-free segment, [requested_id] is the path
    parameter [id] when the event has a non-empty one, whatever the path
    says, and that last segment otherwise. *)
Theorem requested_id_resolution (ev : event) (p segment : string) :
  path ev = (p ++ "/" ++ segment)%string ->
  contains "/" segment = false ->
  requested_id ev
  = match default ∅ (pathParameters ev) !! "id" with
    | Some id => if String.eqb id "" then segment else id
    | None => segment
    end.
Proof.
  intros Hpath Hseg. unfold requested_id. rewrite Hpath.
  rewrite last_segment_app by exact Hseg. reflexivity.
Qed.

Lemma route_get (ev : event) (body : value) (p item_id : string) :
  httpMethod ev = "GET" ->
  path ev = (p ++ "/items/" ++ item_id)%string ->
  contains "/" item_id = false ->
  (∀ id, default ∅ (pathParameters ev) !! "id" = Some id ->
         id = "" ∨ id = item_id) ->
  route ev body = Some (Get item_id).
Proof.
  intros Hm Hpath Hid Hpp. unfold route. rewrite Hm.
  change (String.eqb "GET" "POST") with false. cbn [andb].
  change (String.eqb "GET" "GET") with true. cbn [andb].
  rewrite Hpath, contains_app.
  rewrite (requested_id_from_path ev (p ++ "/items") item_id); [done|done| |done].
  rewrite Hpath, string_app_assoc. reflexivity.
Qed.

Lemma route_post (ev : event) (body : value) (p : string) :
  httpMethod ev = "POST" ->
  path ev = (p ++ "/items")%string ->
  route ev body = Some (Create body).
Proof.
  intros Hm Hpath. unfold route. rewrite Hm, Hpath, endswith_app. reflexivity.
Qed.

(** ** Through the dispatcher *)

(** A routed operation that answers: the dispatcher passes the answer
    on and adds nothing to the table. *)
Lemma handler_routed (json_loads : string -> loaded) (e : env)
    (ev : event) (ctx : context) (w : world) (body : value) (r : request)
    (resp : response) :
  parse_body json_loads (event_body ev) = Ok body ->
  route ev body = Some r ->
  (serve e r (logged INFO "Incoming request" w)).1 = Ok resp ->
  (handler json_loads e ev ctx w).1 = Ok resp
  ∧ table (handler json_loads e ev ctx w).2
    = table (serve e r (logged INFO "Incoming request" w)).2.
Proof.
  intros Hparse Hroute Hresp.
  rewrite (handler_run json_loads e ev ctx w body Hparse), Hroute.
  cbn [dispatch].
  destruct (serve e r _) as [res w1]. cbn [fst snd] in *. subst res.
  unfold published, logged, log. destruct (cloudwatch_fault e); by split.
Qed.

Lemma parse_body_text (json_loads : string -> loaded) (s : string)
    (v : value) :
  s ≠ "" -> json_loads s = Loaded v -> parse_body json_loads (VStr s) = Ok v.
Proof.
  intros Hs Hparse. unfold parse_body. cbn [truthy is_str].
  rewrite eqb_nonempty by done. cbn [negb andb]. by rewrite Hparse.
Qed.

(** A GET on a path of the form [<base>/items/<id>], with a non-empty,
    slash-free identifier and no other path parameter, with a body on
    which [json.loads] raises nothing but [JSONDecodeError], on a table
    that answers the lookup: the dispatcher returns 200 with exactly the
    item stored under the identifier, or 404 "Item not found" when there
    is none, and leaves the table as it was. *)
Theorem get_by_path (json_loads : string -> loaded) (e : env)
    (ev : event) (ctx : context) (w : world) (p item_id : string) :
  body_readable json_loads ev = true ->
  httpMethod ev = "GET" ->
  path ev = (p ++ "/items/" ++ item_id)%string ->
  item_id ≠ "" ->
  contains "/" item_id = false ->
  (∀ id, default ∅ (pathParameters ev) !! "id" = Some id ->
         id = "" ∨ id = item_id) ->
  ddb_fault e (GetItem item_id) = None ->
  (handler json_loads e ev ctx w).1
    = match table w !! item_id with
      | Some item => Ok (Response 200 json_headers (VDict item))
      | None => Ok (error_response 404 "Item not found")
      end
  ∧ table (handler json_loads e ev ctx w).2 = table w.
Proof.
  intros Hbody Hm Hpath Hid Hslash Hpp Hf.
  destruct (parse_body_readable json_loads ev Hbody) as [body Hparse].
  pose proof (route_get ev body p item_id Hm Hpath Hslash Hpp) as Hroute.
  pose proof (handle_get_item_run e item_id "request"
                (logged INFO "Incoming request" w) Hid Hf) as Hrun.
  change (table (logged INFO "Incoming request" w)) with (table w) in Hrun.
  destruct (table w !! item_id) as [item|];
    (edestruct (handler_routed json_loads e ev ctx w body (Get item_id))
       as [-> ->]; [exact Hparse|exact Hroute|cbn [serve]; by rewrite Hrun|]);
    cbn [serve]; rewrite Hrun; by split.
Qed.

(** The round trip through the API: a POST on [<base>/items] whose body
    text parses to an object with [name] and none of the reserved keys is
    answered with 201 and an identifier, and a following GET on
    [<base'>/items/<that identifier>] is answered with 200 and an item
    that carries every field of the posted object, the name included, and
    equal [createdAt] and [updatedAt]. The calls on the table are taken
    to succeed, and [json.loads] to raise nothing but [JSONDecodeError]
    on the body of the GET. *)
Theorem post_then_get_by_path (json_loads : string -> loaded)
    (e1 e2 : env) (post get : event) (ctx1 ctx2 : context) (w : world)
    (p1 p2 s : string) (d : gmap string value) :
  httpMethod post = "POST" ->
  path post = (p1 ++ "/items")%string ->
  event_body post = VStr s ->
  s ≠ "" ->
  json_loads s = Loaded (VDict d) ->
  is_Some (d !! "name") ->
  d !! "itemId" = None -> d !! "createdAt" = None -> d !! "updatedAt" = None ->
  fault_free e1 ->
  body_readable json_loads get = true ->
  httpMethod get = "GET" ->
  path get = (p2 ++ "/items/" ++ str_uuid (uuid4 e1))%string ->
  (∀ id, default ∅ (pathParameters get) !! "id" = Some id ->
         id = "" ∨ id = str_uuid (uuid4 e1)) ->
  fault_free e2 ->
  (handler json_loads e1 post ctx1 w).1
    = Ok (message_response 201 (str_uuid (uuid4 e1)) "Item created successfully")
  ∧ ∃ item : gmap string value,
      (handler json_loads e2 get ctx2 (handler json_loads e1 post ctx1 w).2).1
        = Ok (Response 200 json_headers (VDict item))
      ∧ (∀ f v, d !! f = Some v -> item !! f = Some v)
      ∧ item !! "itemId" = Some (VStr (str_uuid (uuid4 e1)))
      ∧ item !! "createdAt" = Some (VInt (time_time e1))
      ∧ item !! "updatedAt" = Some (VInt (time_time e1)).
Proof.
  intros Hm1 Hpath1 Hbody Hs Hparse [name Hname] Hid Hc Hu Hf1
         Hread Hm2 Hpath2 Hpp Hf2.
  destruct (parse_body_readable json_loads get Hread) as [body2 Hparse2].
  pose proof (created_item_key_plain e1 d Hid) as Hkey.
  pose proof (handle_create_item_run e1 d name (str_uuid (uuid4 e1)) "request"
                (logged INFO "Incoming request" w) Hname (Hf1 _) Hkey) as Hrun1.
  destruct (handler_routed json_loads e1 post ctx1 w (VDict d)
              (Create (VDict d))
              (message_response 201 (str_uuid (uuid4 e1))
                 "Item created successfully")) as [Hresp1 Htable1].
  { by rewrite Hbody, (parse_body_text json_loads s (VDict d)). }
  { by rewrite (route_post post (VDict d) p1). }
  { cbn [serve]. by rewrite Hrun1. }
  split; [exact Hresp1|].
  cbn [serve] in Htable1. rewrite Hrun1 in Htable1. cbn [snd table] in Htable1.
  change (table (logged INFO "Incoming request" w)) with (table w) in Htable1.
  set (w1 := (handler json_loads e1 post ctx1 w).2) in *.
  pose proof (route_get get body2 p2 (str_uuid (uuid4 e1)) Hm2 Hpath2
                (str_uuid_no_slash _) Hpp) as Hroute2.
  pose proof (handle_get_item_run e2 (str_uuid (uuid4 e1)) "request"
                (logged INFO "Incoming request" w1) (str_uuid_nonempty _)
                (Hf2 _)) as Hrun2.
  change (table (logged INFO "Incoming request" w1)) with (table w1) in Hrun2.
  rewrite Htable1, lookup_insert_eq in Hrun2.
  exists (created_item e1 d).
  destruct (handler_routed json_loads e2 get ctx2 w1 body2
              (Get (str_uuid (uuid4 e1)))
              (Response 200 json_headers (VDict (created_item e1 d))))
    as [-> _]; [exact Hparse2|exact Hroute2|cbn [serve]; by rewrite Hrun2|].
  split; [reflexivity|]. split; [apply created_item_field|].
  unfold created_item. rewrite !new_item_lookup by discriminate.
  by rewrite Hid, Hc, Hu.
Qed.

Lemma object_body_not_dict (v : value) :
  is_dict v = false -> object_body v = None.
Proof.
  intros Hv. unfold object_body. rewrite Hv. cbn [negb].
  by rewrite orb_true_r.
Qed.

(** A POST on [<base>/items] whose body is an empty text, a text that
    [json.loads] rejects, or a text that parses to something other than
    an object is answered with 400 "Invalid input: body must be a JSON
    object", and no call is made on the table. *)
Theorem post_without_object_body (json_loads : string -> loaded)
    (e : env) (ev : event) (ctx : context) (w : world) (p s : string) :
  httpMethod ev = "POST" ->
  path ev = (p ++ "/items")%string ->
  event_body ev = VStr s ->
  s = "" ∨ json_loads s = JSONDecodeError
  ∨ (∃ v, json_loads s = Loaded v ∧ is_dict v = false) ->
  (handler json_loads e ev ctx w).1
    = Ok (error_response 400 "Invalid input: body must be a JSON object")
  ∧ ddb_calls (handler json_loads e ev ctx w).2 = ddb_calls w
  ∧ table (handler json_loads e ev ctx w).2 = table w.
Proof.
  intros Hm Hpath Hbody Hbad.
  assert (∃ body, parse_body json_loads (event_body ev) = Ok body
                  ∧ object_body body = None) as (body & Hparse & Hobject).
  { rewrite Hbody. unfold parse_body. cbn [truthy is_str].
    destruct Hbad as [->|[Hnone|(v & Hv & Hnd)]].
    - by exists (VStr "").
    - rewrite Hnone.
      destruct (negb (String.eqb s "") && true);
        (exists (VStr s); split; [reflexivity|by apply object_body_not_dict]).
    - rewrite Hv.
      destruct (negb (String.eqb s "") && true).
      + exists v. split; [reflexivity|by apply object_body_not_dict].
      + exists (VStr s). split; [reflexivity|by apply object_body_not_dict]. }
  rewrite (handler_run json_loads e ev ctx w body Hparse),
    (route_post ev body p) by done.
  cbn [dispatch serve]. rewrite handle_create_item_cases, Hobject.
  unfold published, logged, log; destruct (cloudwatch_fault e); repeat split.
Qed.

(** ** A table that is down *)

Lemma serve_table_down (e : env) (r : request) (w : world) (err : exn) :
  (∀ c, ddb_fault e c = Some err) ->
  table (serve e r w).2 = table w
  ∧ (serve e r w).1
    = match validation_error r with
      | Some message => Ok (error_response 400 message)
      | None =>
          if is_ClientError err then Ok (error_response 500 (failure_message r))
          else Raise err
      end.
Proof.
  intros Hdown.
  destruct r;
    cbn [serve failure_message validation_error required_fields first_missing];
    by_cases;
    repeat match goal with
           | H : ddb_fault e _ = _ |- _ => rewrite Hdown in H; simplify_eq
           end;
    first [congruence | split; reflexivity].
Qed.

(** When every call on the table fails with the same exception, a
    request whose body parses and which is routed to an operation is
    answered 400, with the message of the guard it fails, exactly when it
    does not pass the operation's validation, and otherwise 500: with the
    operation's own message ("Failed to create item", "Failed to retrieve
    item", "Failed to update item", "Failed to delete item") for a
    [ClientError], and with "Internal server error" for any other
    exception, which the operation lets escape to the dispatcher. The
    table is unchanged. *)
Theorem table_down (json_loads : string -> loaded) (e : env)
    (ev : event) (ctx : context) (w : world) (body : value) (r : request)
    (err : exn) :
  parse_body json_loads (event_body ev) = Ok body ->
  route ev body = Some r ->
  (∀ c, ddb_fault e c = Some err) ->
  (handler json_loads e ev ctx w).1
    = Ok match validation_error r with
         | Some message => error_response 400 message
         | None =>
             error_response 500
               (if is_ClientError err then failure_message r
                else "Internal server error")
         end
  ∧ table (handler json_loads e ev ctx w).2 = table w.
Proof.
  intros Hparse Hroute Hdown.
  rewrite (handler_run json_loads e ev ctx w body Hparse), Hroute.
  cbn [dispatch].
  destruct (serve_table_down e r (logged INFO "Incoming request" w) err Hdown)
    as [Htable Hres].
  destruct (serve e r _) as [res w1]; cbn [fst snd] in *. subst res.
  destruct (validation_error r) as [message|]; [|destruct (is_ClientError err)];
    (split; [reflexivity|]); unfold published, logged, log;
    destruct (cloudwatch_fault e); exact Htable.
Qed.

(** ** Answers of Get *)

(** Get never changes the table, and its answers are about the table: a
    200 carries exactly the item stored under the identifier, a 404 means
    that nothing is stored there, and an exception that escapes is the
    one the lookup failed with. *)
Theorem get_answers_reflect_the_table (e : env) (item_id rid : string)
    (w : world) :
  table (handle_get_item e item_id rid w).2 = table w
  ∧ match (handle_get_item e item_id rid w).1 with
    | Ok resp =>
        (statusCode resp = 200 ->
         ∃ item, table w !! item_id = Some item ∧ body resp = VDict item)
        ∧ (statusCode resp = 404 -> table w !! item_id = None)
    | Raise err =>
        ddb_fault e (GetItem item_id) = Some err ∧ is_ClientError err = false
    end.
Proof.
  by_cases; split; try reflexivity; try (by split);
    split; try discriminate; eauto.
Qed.

(** ** Operations in sequence *)

(** A deleted item stays gone: after a successful Delete, on a table
    that answers, a Get, an Update with any object body and a second
    Delete of the same identifier are each answered 404 "Item not found",
    and none of them brings the item back. *)
Theorem deleted_item_stays_gone (e e' : env) (item_id rid : string)
    (d : gmap string value) (w : world) :
  item_id ≠ "" ->
  is_Some (table w !! item_id) ->
  d ≠ ∅ ->
  fault_free e -> fault_free e' ->
  let w1 := (handle_delete_item e item_id rid w).2 in
  table w1 !! item_id = None
  ∧ ∀ r, r ∈ [Get item_id; Update item_id (VDict d); Delete item_id] ->
         (serve e' r w1).1 = Ok (error_response 404 "Item not found")
         ∧ table (serve e' r w1).2 = table w1.
Proof.
  intros Hid [item Hitem] Hd Hf Hf' w1.
  assert (table w1 !! item_id = None) as Hgone.
  { unfold w1. rewrite handle_delete_item_run by done. rewrite Hitem.
    cbn [snd table]. apply lookup_delete_eq. }
  split; [exact Hgone|]. intros r Hr.
  repeat (apply elem_of_cons in Hr as [->|Hr]); [| | |by apply elem_of_nil in Hr];
    cbn [serve].
  - rewrite handle_get_item_run by (done || apply Hf'). by rewrite Hgone.
  - by rewrite handle_update_item_missing by (done || apply Hf').
  - rewrite handle_delete_item_run by done. by rewrite Hgone.
Qed.

(** Two creates with distinct UUIDs never collide: for bodies that carry
    no [itemId], on a table that answers, after both creates each item is
    stored under its own identifier, the second create having left the
    first item as it was. *)
Theorem creates_do_not_collide (e1 e2 : env) (d1 d2 : gmap string value)
    (rid1 rid2 : string) (w : world) :
  (uuid4 e1 < 2 ^ 128)%N -> (uuid4 e2 < 2 ^ 128)%N ->
  uuid4 e1 ≠ uuid4 e2 ->
  is_Some (d1 !! "name") -> is_Some (d2 !! "name") ->
  d1 !! "itemId" = None -> d2 !! "itemId" = None ->
  fault_free e1 -> fault_free e2 ->
  let w2 := (handle_create_item e2 (VDict d2) rid2
               (handle_create_item e1 (VDict d1) rid1 w).2).2 in
  table w2 !! str_uuid (uuid4 e1) = Some (created_item e1 d1)
  ∧ table w2 !! str_uuid (uuid4 e2) = Some (created_item e2 d2).
Proof.
  intros Hu1 Hu2 Hne [n1 Hn1] [n2 Hn2] Hid1 Hid2 Hf1 Hf2 w2. unfold w2.
  rewrite (handle_create_item_run e1 d1 n1 (str_uuid (uuid4 e1)));
    [|exact Hn1|apply Hf1|by apply created_item_key_plain].
  rewrite (handle_create_item_run e2 d2 n2 (str_uuid (uuid4 e2)));
    [|exact Hn2|apply Hf2|by apply created_item_key_plain].
  cbn [snd table]. split.
  - rewrite lookup_insert_ne; [apply lookup_insert_eq|].
    intros H. apply Hne. symmetry. by apply str_uuid_eq.
  - apply lookup_insert_eq.
Qed.

(** ** Tables reached from the empty one *)

(** Whatever requests are served, with whatever bodies and failures,
    every item of the table is stored under its own [itemId], a
    non-empty string. *)
Theorem reachable_tables_are_keyed_by_itemId (steps : list (env * request))
    (k : string) (item : gmap string value) :
  table (run steps empty_world) !! k = Some item ->
  item !! "itemId" = Some (VStr k) ∧ k ≠ "".
Proof.
  intros Hitem. apply key_of_Some.
  assert (table_ok (table (run steps empty_world))) as Hok.
  { apply run_table_ok. apply map_Forall_empty. }
  by apply Hok.
Qed.

(** ** Instances *)

Lemma no_path_parameter (ev : event) (segment : string) :
  pathParameters ev = None ->
  ∀ id, default ∅ (pathParameters ev) !! "id" = Some id ->
        id = "" ∨ id = segment.
Proof. intros -> id H. cbn in H. by rewrite lookup_empty in H. Qed.

Lemma other_items_untouched_witness :
  table (serve (sample_env sample_uuid 200) (Delete "item-2")
           world_with_widget).2 !! "item-1"
  = table world_with_widget !! "item-1".
Proof.
  apply (other_items_untouched (sample_env sample_uuid 200) (Delete "item-2")
           world_with_widget "item-1").
  cbn [addressed]. discriminate.
Defined.

Lemma update_never_touches_itemId_createdAt_witness :
  ∃ item' : gmap string value,
    table (handle_update_item (sample_env sample_uuid 200) "item-1"
             (VDict body_with_updated_at) "req-1" world_with_widget).2
      !! "item-1" = Some item'
    ∧ item' !! "itemId" = stored_widget !! "itemId"
    ∧ item' !! "createdAt" = stored_widget !! "createdAt".
Proof.
  apply (update_never_touches_itemId_createdAt (sample_env sample_uuid 200)
           "item-1" (VDict body_with_updated_at) "req-1" world_with_widget
           "item-1" stored_widget).
  reflexivity.
Defined.

Lemma updated_at_overrides_the_timestamp_witness :
  ∃ item' : gmap string value,
    table (handle_update_item (sample_env sample_uuid 200) "item-1"
             (VDict body_with_updated_at) "req-1" world_with_widget).2
      !! "item-1" = Some item'
    ∧ item' !! "updatedAt" = Some (VInt 0)
    ∧ item' !! "updated_at" = Some (VInt 0).
Proof.
  assert ("item-1" ≠ "") as Hid by discriminate.
  exact (proj2 (updated_at_overrides_the_timestamp
                  (sample_env sample_uuid 200) "item-1" "req-1"
                  body_with_updated_at stored_widget (VInt 0) world_with_widget
                  Hid eq_refl eq_refl eq_refl (sample_env_fault_free _ _))).
Defined.

Lemma create_stores_the_body_witness :
  ∃ (k : string) (item : gmap string value),
    key_of item = Some k
    ∧ table (handle_create_item (sample_env sample_uuid 1700000000)
               (VDict body_with_itemId) "req-1" empty_world).2 !! k
      = Some item
    ∧ item !! "itemId" = Some (VStr "custom")
    ∧ item !! "description" = Some (VStr "").
Proof.
  assert (is_Some (body_with_itemId !! "name")) as H1 by (by eexists).
  assert (put_succeeds (sample_env sample_uuid 1700000000)
            (created_item (sample_env sample_uuid 1700000000) body_with_itemId))
    as H2 by (split; [reflexivity|by eexists]).
  destruct (create_stores_the_body (sample_env sample_uuid 1700000000)
              body_with_itemId "req-1" empty_world H1 H2)
    as (k & item & Hkey & Hstored & Hbody & _ & Hdesc).
  exists k, item. split; [exact Hkey|]. split; [exact Hstored|].
  split; [by apply Hbody|by apply Hdesc].
Defined.

Lemma distinct_uuids_distinct_ids_witness :
  str_uuid sample_uuid ≠ str_uuid other_uuid.
Proof.
  apply distinct_uuids_distinct_ids; [reflexivity|reflexivity|discriminate].
Defined.

Lemma requested_id_resolution_witness :
  requested_id get_widget_event = "item-1".
Proof.
  exact (requested_id_resolution get_widget_event "/prod/items" "item-1"
           eq_refl eq_refl).
Defined.

Lemma get_by_path_witness :
  (handler reject_all (sample_env sample_uuid 200) get_widget_event
     sample_context world_with_widget).1
  = Ok (Response 200 json_headers (VDict stored_widget)).
Proof.
  assert ("item-1" ≠ "") as Hid by discriminate.
  exact (proj1 (get_by_path reject_all (sample_env sample_uuid 200)
                  get_widget_event sample_context world_with_widget
                  "/prod" "item-1" eq_refl eq_refl eq_refl Hid eq_refl
                  (no_path_parameter get_widget_event "item-1" eq_refl)
                  eq_refl)).
Defined.

Lemma post_then_get_by_path_witness :
  ∃ item : gmap string value,
    (handler parse_widget (sample_env other_uuid 1700000002) get_created_event
       sample_context
       (handler parse_widget (sample_env sample_uuid 1700000000)
          post_widget_event sample_context empty_world).2).1
    = Ok (Response 200 json_headers (VDict item))
    ∧ item !! "name" = Some (VStr "Widget")
    ∧ item !! "createdAt" = Some (VInt 1700000000)
    ∧ item !! "updatedAt" = Some (VInt 1700000000).
Proof.
  assert (widget_json ≠ "") as Hs by discriminate.
  assert (is_Some (widget_body !! "name")) as Hname by (by eexists).
  destruct (post_then_get_by_path parse_widget
              (sample_env sample_uuid 1700000000)
              (sample_env other_uuid 1700000002)
              post_widget_event get_created_event sample_context
              sample_context empty_world "/prod" "/prod" widget_json
              widget_body eq_refl eq_refl eq_refl Hs eq_refl Hname
              eq_refl eq_refl eq_refl (sample_env_fault_free _ _)
              eq_refl eq_refl eq_refl
              (no_path_parameter get_created_event _ eq_refl)
              (sample_env_fault_free _ _))
    as (_ & item & Hget & Hbody & _ & Hc & Hu).
  exists item. split; [exact Hget|]. split; [by apply Hbody|].
  split; [exact Hc|exact Hu].
Defined.

Lemma post_without_object_body_witness :
  (handler reject_all (sample_env sample_uuid 200) post_text_event
     sample_context empty_world).1
  = Ok (error_response 400 "Invalid input: body must be a JSON object").
Proof.
  exact (proj1 (post_without_object_body reject_all
                  (sample_env sample_uuid 200) post_text_event sample_context
                  empty_world "/prod" "not json" eq_refl eq_refl eq_refl
                  (or_intror (or_introl eq_refl)))).
Defined.

Lemma handler_responds_unless_json_loads_raises_witness :
  (∃ resp,
     (handler parse_widget (sample_env sample_uuid 1700000000)
        post_widget_event sample_context empty_world).1 = Ok resp
     ∧ headers resp = json_headers
     ∧ statusCode resp ∈ status_codes)
  ∧ handler loads_long_integer (sample_env sample_uuid 1700000000)
      patch_long_integer sample_context empty_world
    = (Raise (OtherException "ValueError"), empty_world).
Proof.
  assert (long_integer ≠ "") as Hs.
  { intros H. apply (f_equal String.length) in H. vm_compute in H.
    discriminate H. }
  split.
  - exact (proj1 (handler_responds_unless_json_loads_raises parse_widget
                    (sample_env sample_uuid 1700000000) post_widget_event
                    sample_context empty_world) eq_refl).
  - exact (proj2 (handler_responds_unless_json_loads_raises loads_long_integer
                    (sample_env sample_uuid 1700000000) patch_long_integer
                    sample_context empty_world)
             long_integer (OtherException "ValueError") eq_refl Hs eq_refl).
Defined.

Lemma handler_publishes_one_counter_witness :
  ∃ name,
    (name = "SuccessfulInvocations"
     ∨ (name = "InvocationErrors"
        ∧ (handler parse_widget (sample_env sample_uuid 1700000000)
             post_widget_event sample_context empty_world).1
          = Ok (error_response 500 "Internal server error")))
    ∧ metrics (handler parse_widget (sample_env sample_uuid 1700000000)
                 post_widget_event sample_context empty_world).2
      = [Metric name (VInt 1) "Count" "items-api"].
Proof.
  exact (handler_publishes_one_counter parse_widget
           (sample_env sample_uuid 1700000000) post_widget_event
           sample_context empty_world eq_refl).
Defined.

Lemma table_down_witness :
  (handler reject_all down_env get_widget_event sample_context
     world_with_widget).1
  = Ok (error_response 500 "Internal server error")
  ∧ table (handler reject_all down_env get_widget_event sample_context
             world_with_widget).2
    = table world_with_widget.
Proof.
  exact (table_down reject_all down_env get_widget_event sample_context
           world_with_widget (VStr "") (Get "item-1")
           (OtherException "EndpointConnectionError") eq_refl eq_refl
           (fun _ => eq_refl)).
Defined.

Lemma deleted_item_stays_gone_witness :
  (serve (sample_env sample_uuid 201) (Get "item-1")
     (handle_delete_item (sample_env sample_uuid 200) "item-1" "req-1"
        world_with_widget).2).1
  = Ok (error_response 404 "Item not found").
Proof.
  assert ("item-1" ≠ "") as Hid by discriminate.
  assert (is_Some (table world_with_widget !! "item-1")) as Hsome
    by (by eexists).
  assert (description_B ≠ ∅) as Hd.
  { apply (lookup_nonempty _ "description"). by eexists. }
  refine (proj1 (proj2 (deleted_item_stays_gone (sample_env sample_uuid 200)
                          (sample_env sample_uuid 201) "item-1" "req-1"
                          description_B world_with_widget Hid Hsome Hd
                          (sample_env_fault_free _ _)
                          (sample_env_fault_free _ _)) (Get "item-1") _)).
  apply elem_of_cons. by left.
Defined.

Lemma creates_do_not_collide_witness :
  is_Some (table (handle_create_item (sample_env other_uuid 1700000001)
                    (VDict widget_body) "req-2"
                    (handle_create_item (sample_env sample_uuid 1700000000)
                       (VDict name_A) "req-1" empty_world).2).2
           !! sample_id).
Proof.
  assert (sample_uuid ≠ other_uuid) as Hne by discriminate.
  assert (is_Some (name_A !! "name")) as H1 by (by eexists).
  assert (is_Some (widget_body !! "name")) as H2 by (by eexists).
  destruct (creates_do_not_collide (sample_env sample_uuid 1700000000)
              (sample_env other_uuid 1700000001) name_A widget_body
              "req-1" "req-2" empty_world eq_refl eq_refl Hne H1 H2
              eq_refl eq_refl (sample_env_fault_free _ _)
              (sample_env_fault_free _ _)) as [Hfirst _].
  eexists. exact Hfirst.
Defined.

Lemma reachable_tables_are_keyed_by_itemId_witness :
  created_item (sample_env sample_uuid 1700000000) body_with_updatedAt
    !! "itemId" = Some (VStr sample_id).
Proof.
  exact (proj1 (reachable_tables_are_keyed_by_itemId unordered_run sample_id
                  (created_item (sample_env sample_uuid 1700000000)
                     body_with_updatedAt) eq_refl)).
Defined.

Lemma plain_runs_keep_timestamps_ordered_witness :
  ∃ item : gmap string value,
    table (run plain_run empty_world) !! sample_id = Some item
    ∧ timestamps_ordered item = true.
Proof.
  destruct (table (run plain_run empty_world) !! sample_id) as [item|] eqn:H.
  - exists item. split; [reflexivity|].
    exact (plain_runs_keep_timestamps_ordered plain_run 0 empty_world
             (map_Forall_empty _) eq_refl eq_refl sample_id item H).
  - vm_compute in H. discriminate H.
Defined.

Lemma create_then_get_plain_witness :
  ∃ item : gmap string value,
    (handle_get_item (sample_env other_uuid 1700000001) sample_id "req-2"
       (handle_create_item (sample_env sample_uuid 1700000000)
          (VDict widget_body) "req-1" empty_world).2).1
    = Ok (Response 200 json_headers (VDict item))
    ∧ item !! "name" = Some (VStr "Widget").
Proof.
  destruct (create_then_get_plain (sample_env sample_uuid 1700000000)
              (sample_env other_uuid 1700000001) widget_body (VStr "Widget")
              "req-1" "req-2" empty_world eq_refl eq_refl eq_refl eq_refl
              (sample_env_fault_free _ _) (sample_env_fault_free _ _))
    as (_ & _ & item & Hget & _ & _ & Hname).
  exists item. split; [exact Hget|exact Hname].
Defined.

(** ** Validation at the edges *)

(** The error message of a response, when its body is an error object. *)
Lemma error_response_inj (s1 s2 : Z) (m1 m2 : string) :
  error_response s1 m1 = error_response s2 m2 -> s1 = s2 ∧ m1 = m2.
Proof.
  intros H. split; [by injection H|].
  apply (f_equal (fun r => match body r with
                           | VDict b => b !! "error"
                           | _ => None
                           end)) in H.
  cbn [body error_response] in H. rewrite !lookup_singleton_eq in H.
  by injection H.
Qed.

(** Create rejects a body as invalid input exactly when it is not a
    dictionary with at least one key: [None], numbers, strings, lists and
    the empty dictionary are all answered 400 "Invalid input: body must
    be a JSON object", and no other body is. *)
Theorem create_invalid_input_iff (e : env) (body : value) (rid : string)
    (w : world) :
  (handle_create_item e body rid w).1
    = Ok (error_response 400 "Invalid input: body must be a JSON object")
  <-> ∀ d, body = VDict d -> d = ∅.
Proof.
  rewrite handle_create_item_cases.
  destruct (object_body body) as [d|] eqn:Hbody.
  - apply object_body_Some in Hbody as [-> Hd]. split.
    + intros H. exfalso. revert H. cbv zeta.
      repeat (inner_case; cbn [fst snd]); intros H; try discriminate H;
        injection H as H; try discriminate H;
        apply error_response_inj in H as [? H]; discriminate H.
    + intros H. by destruct Hd, (H d).
  - split; [|reflexivity]. intros _ d ->.
    destruct (decide (d = ∅)) as [->|Hd]; [reflexivity|].
    by rewrite object_body_dict in Hbody.
Qed.

(** A GET, PUT or DELETE on a path that ends in a slash after the
    collection, with no path parameter and a body on which [json.loads]
    raises nothing but [JSONDecodeError], has the empty identifier: it is
    answered 400 with the operation's own message, "Item ID is required"
    for GET, "Item ID is required for update" for PUT, whatever the body,
    and "Item ID is required for deletion" for DELETE, and no call is
    made on the table. *)
Theorem empty_identifier_is_400 (json_loads : string -> loaded)
    (e : env) (ev : event) (ctx : context) (w : world) (p : string) :
  httpMethod ev ∈ ["GET"; "PUT"; "DELETE"] ->
  path ev = (p ++ "/items/")%string ->
  pathParameters ev = None ->
  body_readable json_loads ev = true ->
  (handler json_loads e ev ctx w).1
    = Ok (error_response 400
            (if String.eqb (httpMethod ev) "GET" then "Item ID is required"
             else if String.eqb (httpMethod ev) "PUT"
                  then "Item ID is required for update"
                  else "Item ID is required for deletion"))
  ∧ ddb_calls (handler json_loads e ev ctx w).2 = ddb_calls w.
Proof.
  intros Hm Hpath Hpp Hbody.
  destruct (parse_body_readable json_loads ev Hbody) as [body Hparse].
  rewrite (handler_run json_loads e ev ctx w body Hparse). unfold route.
  assert (requested_id ev = "") as ->.
  { apply (requested_id_from_path ev (p ++ "/items") "");
      [by apply no_path_parameter| |reflexivity].
    rewrite Hpath, string_app_assoc. reflexivity. }
  assert (contains "/items/" (path ev) = true) as ->.
  { rewrite Hpath. apply (contains_app "/items/" p ""). }
  repeat (apply elem_of_cons in Hm as [->|Hm]); [| | |by apply elem_of_nil in Hm];
    cbn [String.eqb Ascii.eqb Bool.eqb andb dispatch serve].
  - unfold published; destruct (cloudwatch_fault e); split; reflexivity.
  - unfold published; destruct (cloudwatch_fault e); split; reflexivity.
  - unfold published; destruct (cloudwatch_fault e); split; reflexivity.
Qed.

Lemma empty_identifier_is_400_witness :
  ((handler reject_all (sample_env sample_uuid 200) get_collection_event
      sample_context world_with_widget).1
   = Ok (error_response 400 "Item ID is required")
   ∧ ddb_calls (handler reject_all (sample_env sample_uuid 200)
                  get_collection_event sample_context world_with_widget).2
     = [])
  ∧ ((handler parse_widget (sample_env sample_uuid 200) put_collection_event
        sample_context world_with_widget).1
     = Ok (error_response 400 "Item ID is required for update")
     ∧ ddb_calls (handler parse_widget (sample_env sample_uuid 200)
                    put_collection_event sample_context world_with_widget).2
       = []).
Proof.
  assert (httpMethod get_collection_event ∈ ["GET"; "PUT"; "DELETE"]) as Hget
    by (apply elem_of_cons; by left).
  assert (httpMethod put_collection_event ∈ ["GET"; "PUT"; "DELETE"]) as Hput
    by (apply elem_of_cons; right; apply elem_of_cons; by left).
  split.
  - exact (empty_identifier_is_400 reject_all (sample_env sample_uuid 200)
             get_collection_event sample_context world_with_widget "/prod"
             Hget eq_refl eq_refl eq_refl).
  - exact (empty_identifier_is_400 parse_widget (sample_env sample_uuid 200)
             put_collection_event sample_context world_with_widget "/prod"
             Hput eq_refl eq_refl eq_refl).
Defined.

(** ** Updates in sequence *)

(** Two updates of an item accumulate: on a table that answers, with
    bodies that name neither [updatedAt] nor [updated_at], the item ends
    with the second body's value for every field the second body names,
    else the first body's, else the stored one; [itemId] and [createdAt]
    are the stored ones and [updatedAt] is the clock reading of the second
    update. *)
Theorem updates_accumulate (e1 e2 : env) (item_id rid1 rid2 : string)
    (d1 d2 old : gmap string value) (w : world) :
  item_id ≠ "" ->
  table w !! item_id = Some old ->
  d1 ≠ ∅ -> d2 ≠ ∅ ->
  d1 !! "updatedAt" = None -> d1 !! "updated_at" = None ->
  d2 !! "updatedAt" = None -> d2 !! "updated_at" = None ->
  fault_free e1 -> fault_free e2 ->
  ∃ item : gmap string value,
    table (handle_update_item e2 item_id (VDict d2) rid2
             (handle_update_item e1 item_id (VDict d1) rid1 w).2).2
      !! item_id = Some item
    ∧ item !! "itemId" = old !! "itemId"
    ∧ item !! "createdAt" = old !! "createdAt"
    ∧ item !! "updatedAt" = Some (VInt (time_time e2))
    ∧ ∀ k, k ∉ ["itemId"; "createdAt"; "updatedAt"] ->
           item !! k = match d2 !! k with
                       | Some v => Some v
                       | None => match d1 !! k with
                                 | Some v => Some v
                                 | None => old !! k
                                 end
                       end.
Proof.
  intros Hid Hold Hd1 Hd2 Hu1 Hv1 Hu2 Hv2 Hf1 Hf2.
  destruct (update_request_apply (time_time e1) d1 old)
    as (item1 & Hset1 & Hlook1).
  destruct (update_request_apply (time_time e2) d2 item1)
    as (item2 & Hset2 & Hlook2).
  rewrite (handle_update_item_found e1 item_id rid1 d1 old item1) by done.
  rewrite (handle_update_item_found e2 item_id rid2 d2 item1 item2);
    [|done|done|done|cbn [snd table]; apply lookup_insert_eq|done].
  exists item2. cbn [snd table]. split; [apply lookup_insert_eq|].
  split; [|split; [|split]].
  - rewrite Hlook2, Hlook1. by rewrite !bool_decide_eq_true_2 by key_list.
  - rewrite Hlook2, Hlook1. by rewrite !bool_decide_eq_true_2 by key_list.
  - rewrite Hlook2, Hu2, Hv2. by rewrite bool_decide_eq_false_2 by key_list.
  - intros k Hk. apply not_elem_of_cons in Hk as [Hk1 Hk].
    apply not_elem_of_cons in Hk as [Hk2 Hk].
    apply not_elem_of_cons in Hk as [Hk3 _].
    rewrite Hlook2, Hlook1.
    rewrite !(bool_decide_eq_false_2 (k ∈ _)) by key_list.
    rewrite !(bool_decide_eq_false_2 (k = _)) by done.
    reflexivity.
Qed.

Lemma updates_accumulate_witness :
  ∃ item : gmap string value,
    table (handle_update_item (sample_env sample_uuid 300) "item-1"
             (VDict colour_blue) "req-2"
             (handle_update_item (sample_env sample_uuid 200) "item-1"
                (VDict description_B) "req-1" world_with_widget).2).2
      !! "item-1" = Some item
    ∧ item !! "updatedAt" = Some (VInt 300)
    ∧ item !! "colour" = Some (VStr "blue")
    ∧ item !! "description" = Some (VStr "B")
    ∧ item !! "name" = Some (VStr "Widget").
Proof.
  assert ("item-1" ≠ "") as Hid by discriminate.
  assert (description_B ≠ ∅) as Hd1.
  { apply (lookup_nonempty _ "description"). by eexists. }
  assert (colour_blue ≠ ∅) as Hd2.
  { apply (lookup_nonempty _ "colour"). by eexists. }
  destruct (updates_accumulate (sample_env sample_uuid 200)
              (sample_env sample_uuid 300) "item-1" "req-1" "req-2"
              description_B colour_blue stored_widget world_with_widget
              Hid eq_refl Hd1 Hd2 eq_refl eq_refl eq_refl eq_refl
              (sample_env_fault_free _ _) (sample_env_fault_free _ _))
    as (item & Hitem & _ & _ & Hu & Hrest).
  exists item. split; [exact Hitem|]. split; [exact Hu|].
  split; [|split].
  - rewrite Hrest; [reflexivity|key_list].
  - rewrite Hrest; [reflexivity|key_list].
  - rewrite Hrest; [reflexivity|key_list].
Defined.
